(** * AddTemplateService.call (apps/webapp/app/services/templates/addTemplate.server.ts)

    A shallow embedding of the service that validates a form payload,
    looks up a GitHub App authorization and a template, creates a
    repository from the template through the GitHub API and persists
    an OrganizationTemplate.

    Strings are [String.string]; one element stands for one UTF-16 code
    unit of the JavaScript string (code units above 0xFF are not
    represented). *)

From Stdlib Require Import String Ascii List Bool Arith ZArith Lia.
Import ListNotations.
Set Warnings "-register-all".
Local Open Scope string_scope.
Local Open Scope list_scope.

(** ** JavaScript values *)

Module Js.

(** The values a payload of TypeScript type [unknown] (and a Prisma
    [Json] column) can hold.  An object is the list of its own
    properties; reading a property finds the first entry of that key.
    The properties an object inherits from Object.prototype
    (constructor, toString and the like) are not modelled: [prop],
    [has_prop] and [get] agree with JavaScript on every other key, and
    the schema and the service read none of the inherited ones. *)
Inductive JsValue : Type :=
| JsUndefined
| JsNull
| JsBoolean (b : bool)
| JsNumber (n : Z)
| JsString (s : string)
| JsArray (items : list JsValue)
| JsObject (props : list (string * JsValue)).

(** [data[key]] *)
Fixpoint prop (key : string) (props : list (string * JsValue)) : JsValue :=
  match props with
  | [] => JsUndefined
  | (k, v) :: rest => if String.eqb k key then v else prop key rest
  end.

(** [key in data] *)
Fixpoint has_prop (key : string) (props : list (string * JsValue)) : bool :=
  match props with
  | [] => false
  | (k, _) :: rest => String.eqb k key || has_prop key rest
  end.

(** [v.key] for a value [v]; the callers below only read objects. *)
Definition get (v : JsValue) (key : string) : JsValue :=
  match v with
  | JsObject props => prop key props
  | _ => JsUndefined
  end.

(** [v === s] for a string literal [s]. *)
Definition strict_eq_string (v : JsValue) (s : string) : bool :=
  match v with
  | JsString t => String.eqb t s
  | _ => false
  end.

(** The string held by a value whose static type is [string]. *)
Definition string_of (v : JsValue) : string :=
  match v with
  | JsString s => s
  | _ => ""
  end.

(** [s.split(sep)] for a separator of one code unit: the pieces between
    the occurrences of [sep]; the empty string gives one empty piece. *)
Fixpoint split (sep : ascii) (s : string) : list string :=
  match s with
  | EmptyString => [""]
  | String c rest =>
      if Ascii.eqb c sep then "" :: split sep rest
      else match split sep rest with
           | [] => [String c ""]
           | piece :: pieces => String c piece :: pieces
           end
  end.

(** [xs.slice(1)] *)
Definition slice1 {A : Type} (xs : list A) : list A := tl xs.

(** [const [a, b] = xs]: an element that is missing is [undefined]. *)
Definition destructure2 {A : Type} (xs : list A) : option A * option A :=
  (nth_error xs 0, nth_error xs 1).

End Js.
Import Js.

(** ** The part of zod that FormSchema uses *)

Module Zod.

Inductive ZodParsedType : Type :=
| zpt_string | zpt_number | zpt_boolean | zpt_undefined | zpt_null
| zpt_array | zpt_object.

Definition getParsedType (v : JsValue) : ZodParsedType :=
  match v with
  | JsUndefined => zpt_undefined
  | JsNull => zpt_null
  | JsBoolean _ => zpt_boolean
  | JsNumber _ => zpt_number
  | JsString _ => zpt_string
  | JsArray _ => zpt_array
  | JsObject _ => zpt_object
  end.

Inductive ZodIssueCode : Type :=
| invalid_type (expected received : ZodParsedType)
| invalid_literal (expected : string) (received : JsValue)
| too_small (minimum : nat)
| too_big (maximum : nat).

Record ZodIssue : Type := mkIssue { code : ZodIssueCode; path : list string }.

Inductive ZodStringCheck : Type :=
| min (value : nat)
| max (value : nat).

(** Schemas: [z.string()] with its checks in the order they were
    added, [z.literal(s)] for a string [s], [.optional()], [z.object]. *)
Inductive ZodType : Type :=
| ZodString (checks : list ZodStringCheck)
| ZodLiteral (value : string)
| ZodOptional (innerType : ZodType)
| ZodObject (shape : list (string * ZodType)).

(** One check of ZodString._parse: a failing check adds its issue and
    parsing goes on with the next check. *)
Definition check_string (p : list string) (s : string) (c : ZodStringCheck)
  : list ZodIssue :=
  match c with
  | min n => if Nat.ltb (String.length s) n then [mkIssue (too_small n) p] else []
  | max n => if Nat.ltb n (String.length s) then [mkIssue (too_big n) p] else []
  end.

(** mergeObjectSync: the object is INVALID as soon as one value is; a
    key is set when its value is not undefined or the key is in the
    input (unknown keys of the input are stripped). *)
Definition merge_pair (key : string) (present : bool) (v : option JsValue)
    (rest : option (list (string * JsValue))) : option (list (string * JsValue)) :=
  match v, rest with
  | Some JsUndefined, Some pairs =>
      Some (if present then (key, JsUndefined) :: pairs else pairs)
  | Some x, Some pairs => Some ((key, x) :: pairs)
  | _, _ => None
  end.

(** [_parse]: the issues added to the context, and the parsed value
    ([None] is zod's INVALID). *)
Fixpoint _parse (t : ZodType) (p : list string) (input : JsValue)
  : list ZodIssue * option JsValue :=
  match t with
  | ZodString checks =>
      match input with
      | JsString s => (flat_map (check_string p s) checks, Some input)
      | _ => ([mkIssue (invalid_type zpt_string (getParsedType input)) p], None)
      end
  | ZodLiteral value =>
      if strict_eq_string input value then ([], Some input)
      else ([mkIssue (invalid_literal value input) p], None)
  | ZodOptional innerType =>
      match input with
      | JsUndefined => ([], Some JsUndefined)
      | _ => _parse innerType p input
      end
  | ZodObject shape =>
      match input with
      | JsObject props =>
          let fix pairs (shape : list (string * ZodType))
            : list ZodIssue * option (list (string * JsValue)) :=
            match shape with
            | [] => ([], Some [])
            | (key, keyType) :: rest =>
                let r := _parse keyType (p ++ [key]) (prop key props) in
                let rs := pairs rest in
                (fst r ++ fst rs, merge_pair key (has_prop key props) (snd r) (snd rs))
            end in
          let r := pairs shape in
          (fst r, option_map JsObject (snd r))
      | _ => ([mkIssue (invalid_type zpt_object (getParsedType input)) p], None)
      end
  end.

Inductive SafeParseReturnType : Type :=
| SafeParseSuccess (data : JsValue)
| SafeParseError (issues : list ZodIssue).

(** [schema.safeParse(input)]: success exactly when no issue was added. *)
Definition safeParse (t : ZodType) (input : JsValue) : SafeParseReturnType :=
  match _parse t [] input with
  | ([], Some data) => SafeParseSuccess data
  | (issues, _) => SafeParseError issues
  end.

End Zod.
Import Zod.

(** lines 14-19 *)
Definition FormSchema : ZodType :=
  ZodObject
    [ ("name", ZodString [min 3; max 100]);
      ("templateId", ZodString []);
      ("private", ZodOptional (ZodLiteral "on"));
      ("appAuthorizationId", ZodString []) ].


(** ** [new URL(input)] and its [pathname]

    The basic URL parser of the URL Standard, run without a base URL and
    without a state override, as [new URL(input)] runs it.  Only the
    scheme and the path of the URL record are kept: credentials, port,
    query and fragment are parsed and dropped.  The host parser (IDNA,
    IPv4 and IPv6 literals) is a parameter: the path depends on it only
    through its success or failure. *)

Module URL.

Local Open Scope nat_scope.

Definition code (c : ascii) : nat := nat_of_ascii c.

Definition is_digit (c : ascii) : bool := (48 <=? code c) && (code c <=? 57).
Definition is_upper (c : ascii) : bool := (65 <=? code c) && (code c <=? 90).
Definition is_lower (c : ascii) : bool := (97 <=? code c) && (code c <=? 122).
Definition is_alpha (c : ascii) : bool := is_upper c || is_lower c.
Definition lower (c : ascii) : ascii :=
  if is_upper c then ascii_of_nat (code c + 32) else c.
Fixpoint lowercase (s : string) : string :=
  match s with
  | EmptyString => EmptyString
  | String c rest => String (lower c) (lowercase rest)
  end.

Definition snoc (s : string) (c : ascii) : string := s ++ String c "".

(** Leading and trailing C0 control or space are removed, then every
    ASCII tab or newline. *)
Definition is_c0_or_space (c : ascii) : bool := code c <=? 32.
Definition is_tab_or_newline (c : ascii) : bool :=
  (code c =? 9) || (code c =? 10) || (code c =? 13).

Fixpoint strip_leading (s : string) : string :=
  match s with
  | String c rest => if is_c0_or_space c then strip_leading rest else s
  | EmptyString => s
  end.

Fixpoint strip_trailing (s : string) : string :=
  match s with
  | EmptyString => EmptyString
  | String c rest =>
      match strip_trailing rest with
      | EmptyString => if is_c0_or_space c then EmptyString else String c ""
      | kept => String c kept
      end
  end.

Fixpoint remove_tab_newline (s : string) : string :=
  match s with
  | EmptyString => EmptyString
  | String c rest =>
      if is_tab_or_newline c then remove_tab_newline rest
      else String c (remove_tab_newline rest)
  end.

(** *** Percent-encoding *)

Definition hex_digit (n : nat) : ascii :=
  if n <? 10 then ascii_of_nat (48 + n) else ascii_of_nat (55 + n).

Definition percent_byte (n : nat) : string :=
  String "%" (String (hex_digit (n / 16)) (String (hex_digit (n mod 16)) "")).

(** UTF-8 percent-encoding of the code point U+0000 to U+00FF. *)
Definition utf8_percent_encode (c : ascii) : string :=
  if code c <? 128 then percent_byte (code c)
  else percent_byte (192 + code c / 64) ++ percent_byte (128 + code c mod 64).

Definition in_c0_control_set (c : ascii) : bool :=
  (code c <? 32) || (126 <? code c).

(** ["034"] is the double quote U+0022. *)
Definition in_query_set (c : ascii) : bool :=
  in_c0_control_set c
  || existsb (Ascii.eqb c) [" "; "034"; "#"; "<"; ">"]%char.

(** The path percent-encode set as Node's parser has it; the current
    text of the standard adds U+005E (^). *)
Definition in_path_set (c : ascii) : bool :=
  in_query_set c || existsb (Ascii.eqb c) ["?"; "`"; "{"; "}"]%char.

Definition percent_encode (set : ascii -> bool) (c : ascii) : string :=
  if set c then utf8_percent_encode c else String c "".

(** *** The URL record *)

Inductive url_path : Type :=
| Opaque (segment : string)
| Segments (segments : list string).

Record url : Type := mkUrl { scheme : string; path : url_path }.

Definition is_special (scheme : string) : bool :=
  existsb (String.eqb scheme) ["ftp"; "file"; "http"; "https"; "ws"; "wss"].

Definition is_single_dot (buffer : string) : bool :=
  existsb (String.eqb (lowercase buffer)) ["."; "%2e"].

Definition is_double_dot (buffer : string) : bool :=
  existsb (String.eqb (lowercase buffer)) [".."; ".%2e"; "%2e."; "%2e%2e"].

Definition is_windows_drive_letter (s : string) : bool :=
  match s with
  | String a (String b EmptyString) =>
      is_alpha a && (Ascii.eqb b ":" || Ascii.eqb b "|")
  | _ => false
  end.

Definition is_normalized_windows_drive_letter (s : string) : bool :=
  match s with
  | String a (String b EmptyString) => is_alpha a && Ascii.eqb b ":"
  | _ => false
  end.

Definition normalize_drive_letter (s : string) : string :=
  match s with
  | String a (String _ rest) => String a (String ":" rest)
  | _ => s
  end.

(** shorten a url's path *)
Definition shorten (scheme : string) (segments : list string) : list string :=
  match segments with
  | [only] =>
      if String.eqb scheme "file" && is_normalized_windows_drive_letter only
      then segments else []
  | _ => removelast segments
  end.

(** *** The states, from the last one back *)

Section States.

Variable scheme : string.

Let special : bool := is_special scheme.

(** "/" always ends a path segment, "\" ends one in a special URL. *)
Definition is_slash (c : ascii) : bool :=
  Ascii.eqb c "/" || (special && Ascii.eqb c "\").

(** What the path state does with [buffer] at the end of a segment;
    [slash] says that the segment was ended by a slash. *)
Definition end_segment (segments : list string) (buffer : string) (slash : bool)
  : list string :=
  if is_double_dot buffer then
    if slash then shorten scheme segments else shorten scheme segments ++ [""]
  else if is_single_dot buffer then
    if slash then segments else segments ++ [""]
  else if String.eqb scheme "file" && (length segments =? 0)
          && is_windows_drive_letter buffer
  then segments ++ [normalize_drive_letter buffer]
  else segments ++ [buffer].

Fixpoint path_state (segments : list string) (buffer input : string)
  : list string :=
  match input with
  | EmptyString => end_segment segments buffer false
  | String c rest =>
      if is_slash c then path_state (end_segment segments buffer true) "" rest
      else if Ascii.eqb c "?" || Ascii.eqb c "#"
      then end_segment segments buffer false
      else path_state segments (buffer ++ percent_encode in_path_set c) rest
  end.

Definition path_start_state (input : string) : list string :=
  match input with
  | EmptyString => if special then path_state [] "" "" else []
  | String c rest =>
      if special then
        if Ascii.eqb c "/" || Ascii.eqb c "\" then path_state [] "" rest
        else path_state [] "" input
      else if Ascii.eqb c "?" || Ascii.eqb c "#" then []
      else if Ascii.eqb c "/" then path_state [] "" rest
      else path_state [] "" input
  end.

(** The code points that end the authority, the host and the port. *)
Definition ends_authority (c : ascii) : bool :=
  is_slash c || Ascii.eqb c "?" || Ascii.eqb c "#".

(** [port] is the value of the digits read so far. *)
Fixpoint port_state (port : N) (input : string) : option (list string) :=
  match input with
  | EmptyString =>
      if (65535 <? port)%N then None else Some (path_start_state input)
  | String c rest =>
      if is_digit c then port_state (10 * port + N.of_nat (code c - 48))%N rest
      else if ends_authority c then
        if (65535 <? port)%N then None else Some (path_start_state input)
      else None
  end.

(** The host parser: its input, whether the host is opaque, and whether
    it succeeds. *)
Variable host_parser : string -> bool -> bool.

Fixpoint host_state (insideBrackets : bool) (buffer input : string)
  : option (list string) :=
  match input with
  | EmptyString =>
      if special && String.eqb buffer "" then None
      else if host_parser buffer (negb special)
      then Some (path_start_state input) else None
  | String c rest =>
      if Ascii.eqb c ":" && negb insideBrackets then
        if String.eqb buffer "" then None
        else if host_parser buffer (negb special) then port_state 0%N rest
        else None
      else if ends_authority c then
        if special && String.eqb buffer "" then None
        else if host_parser buffer (negb special)
        then Some (path_start_state input) else None
      else
        host_state
          (if Ascii.eqb c "[" then true
           else if Ascii.eqb c "]" then false else insideBrackets)
          (snoc buffer c) rest
  end.

(** The authority state reads up to the end of the authority; what
    follows the last "@" is handed back to the host state. *)
Fixpoint authority_state (atSignSeen : bool) (buffer input : string)
  : option (list string) :=
  match input with
  | EmptyString =>
      if atSignSeen && String.eqb buffer "" then None
      else host_state false "" buffer
  | String c rest =>
      if Ascii.eqb c "@" then authority_state true "" rest
      else if ends_authority c then
        if atSignSeen && String.eqb buffer "" then None
        else host_state false "" (buffer ++ input)
      else authority_state atSignSeen (snoc buffer c) rest
  end.

(** special authority slashes state, then special authority ignore
    slashes state: every leading "/" and "\" is skipped. *)
Fixpoint special_authority_ignore_slashes_state (input : string)
  : option (list string) :=
  match input with
  | String c rest =>
      if Ascii.eqb c "/" || Ascii.eqb c "\"
      then special_authority_ignore_slashes_state rest
      else authority_state false "" input
  | EmptyString => authority_state false "" input
  end.

(** path or authority state, entered after the first "/" *)
Definition path_or_authority_state (input : string) : option (list string) :=
  match input with
  | String "/" rest => authority_state false "" rest
  | _ => Some (path_state [] "" input)
  end.

(** file host state *)
Fixpoint file_host_state (buffer input : string) : option (list string) :=
  let at_end :=
    if is_windows_drive_letter buffer then Some (path_state [] buffer input)
    else if String.eqb buffer "" then Some (path_start_state input)
    else if host_parser buffer false then Some (path_start_state input)
    else None in
  match input with
  | EmptyString => at_end
  | String c rest =>
      if ends_authority c then at_end
      else file_host_state (snoc buffer c) rest
  end.

(** file state and file slash state *)
Definition file_state (input : string) : option (list string) :=
  match input with
  | String c rest =>
      if Ascii.eqb c "/" || Ascii.eqb c "\" then
        match rest with
        | String d rest' =>
            if Ascii.eqb d "/" || Ascii.eqb d "\"
            then file_host_state "" rest'
            else Some (path_state [] "" rest)
        | EmptyString => Some (path_state [] "" rest)
        end
      else Some (path_state [] "" input)
  | EmptyString => Some (path_state [] "" input)
  end.

End States.

(** opaque path state, as Node's parser has it; the current text of
    the standard also writes "%20" for a space that precedes "?" or "#". *)
Fixpoint opaque_path_state (input : string) : string :=
  match input with
  | EmptyString => ""
  | String c rest =>
      if Ascii.eqb c "?" || Ascii.eqb c "#" then ""
      else percent_encode in_c0_control_set c ++ opaque_path_state rest
  end.

(** scheme start state and scheme state: the lowercased scheme and
    what follows its ":"; without a base URL anything else is a failure. *)
Definition is_scheme_char (c : ascii) : bool :=
  is_alpha c || is_digit c
  || Ascii.eqb c "+" || Ascii.eqb c "-" || Ascii.eqb c ".".

Fixpoint scheme_state (buffer input : string) : option (string * string) :=
  match input with
  | EmptyString => None
  | String c rest =>
      if is_scheme_char c then scheme_state (snoc buffer (lower c)) rest
      else if Ascii.eqb c ":" then Some (buffer, rest)
      else None
  end.

Definition scheme_start_state (input : string) : option (string * string) :=
  match input with
  | String c rest =>
      if is_alpha c then scheme_state (String (lower c) "") rest else None
  | EmptyString => None
  end.

Section Parser.

Variable host_parser : string -> bool -> bool.

Definition basic_URL_parser (input : string) : option url :=
  match scheme_start_state (remove_tab_newline (strip_trailing (strip_leading input))) with
  | None => None
  | Some (scheme, rest) =>
      if String.eqb scheme "file" then
        option_map (fun p => mkUrl scheme (Segments p))
                   (file_state scheme host_parser rest)
      else if is_special scheme then
        option_map (fun p => mkUrl scheme (Segments p))
                   (special_authority_ignore_slashes_state scheme host_parser rest)
      else
        match rest with
        | String "/" rest' =>
            option_map (fun p => mkUrl scheme (Segments p))
                       (path_or_authority_state scheme host_parser rest')
        | _ => Some (mkUrl scheme (Opaque (opaque_path_state rest)))
        end
  end.

End Parser.

(** The [pathname] getter: the URL path serializer. *)
Definition pathname (u : url) : string :=
  match path u with
  | Opaque segment => segment
  | Segments segments => String.concat "" (map (String "/") segments)
  end.

(** A host parser for the examples below.  It accepts the domains made
    of ASCII letters, digits, "-" and "." whose labels start with a
    letter and not with "xn--"; the host parser of the standard accepts
    these and more.  The theorems stated for every host parser do not
    depend on it. *)
Definition is_domain_char (c : ascii) : bool :=
  is_alpha c || is_digit c || Ascii.eqb c "-" || Ascii.eqb c ".".

Fixpoint all_chars (f : ascii -> bool) (s : string) : bool :=
  match s with
  | EmptyString => true
  | String c rest => f c && all_chars f rest
  end.

Definition label_ok (l : string) : bool :=
  match l with
  | String c _ =>
      is_alpha c
      && negb (String.eqb (lowercase (substring 0 4 l)) "xn--")
  | EmptyString => false
  end.

Definition ascii_domain_host_parser (input : string) (isOpaque : bool) : bool :=
  all_chars is_domain_char input && forallb label_ok (split "." input).

End URL.


(** ** Records read and written by the service *)

(** Modelled from the spec: the Prisma model GitHubAppAuthorization,
    with the fields the service reads ([account] is a Json column). *)
Module GitHubAppAuthorization.
Record t : Type := make { id : string; installationId : Z; account : JsValue }.
End GitHubAppAuthorization.

(** Modelled from the spec: the Prisma model Template. *)
Module Template.
Record t : Type := make { id : string; repositoryUrl : string }.
End Template.

(** Modelled from the spec: the data of a successful AccountSchema
    parse; the service reads its [login]. *)
Module Account.
Record t : Type := make { login : string }.
End Account.

(** Modelled from the spec: the repository returned by the GitHub API,
    its [html_url] and the other fields of the response. *)
Module GithubRepository.
Record t : Type := make { html_url : string; fields : list (string * JsValue) }.
End GithubRepository.

(** The first argument of createRepositoryFromTemplate (lines 99-105);
    a destructured element that is missing is [undefined], here [None]. *)
Module CreateRepositoryParams.
Record t : Type := make {
  template_owner : option string;
  template_repo : option string;
  owner : string;
  name : string;
  private : bool }.
End CreateRepositoryParams.

(** [{ connect: { id } }] and [{ connect: { slug } }] *)
Inductive Connect : Type :=
| connect_id (id : string)
| connect_slug (slug : string).

(** The [data] of organizationTemplate.create (lines 118-138). *)
Module OrganizationTemplateCreateInput.
Record t : Type := make {
  name : string;
  repositoryUrl : string;
  repositoryData : GithubRepository.t;
  template : Connect;
  private : bool;
  organization : Connect;
  authorization : Connect }.
End OrganizationTemplateCreateInput.

(** Modelled from the spec: the Prisma model OrganizationTemplate, the
    record that organizationTemplate.create returns. *)
Module OrganizationTemplate.
Record t : Type := make {
  id : string;
  name : string;
  repositoryUrl : string;
  repositoryData : GithubRepository.t;
  private : bool;
  templateId : string;
  organizationId : string;
  authorizationId : string }.
End OrganizationTemplate.

(** The client of the GitHub App, when the app is configured. *)
Inductive Octokit : Type := OctokitClient.

(** ** Awaited calls

    The promises [call] awaits: two reads and one write of the
    database, and the call of the GitHub API.  A collaborator answers a
    request as the interfaces describe it: a lookup with the record or
    null, createRepositoryFromTemplate with the repository or
    undefined, create with the created record; or its promise rejects
    (the database is unreachable, the record to connect does not
    exist), and [await] throws the reason. *)

Inductive Request : Type :=
| gitHubAppAuthorization_findUnique (where_id : string)
| template_findUnique (where_id : string)
| createRepositoryFromTemplate (params : CreateRepositoryParams.t) (installationId : Z)
| organizationTemplate_create (data : OrganizationTemplateCreateInput.t).

Definition Response (r : Request) : Type :=
  match r with
  | gitHubAppAuthorization_findUnique _ => option GitHubAppAuthorization.t
  | template_findUnique _ => option Template.t
  | createRepositoryFromTemplate _ _ => option GithubRepository.t
  | organizationTemplate_create _ => OrganizationTemplate.t
  end.

(** What leaves [call] when it throws: the TypeError of [new URL], or
    the reason of a rejected promise that [await] rethrows. *)
Inductive Exception : Type :=
| TypeError (message : string)
| Rejection (reason : string).

(** An async function body: it returns, throws, or awaits a request
    and goes on with the answer. *)
Inductive Prog (A : Type) : Type :=
| Return (a : A)
| Throw (e : Exception)
| Await (r : Request) (k : Response r -> Prog A).

Arguments Return {A} a.
Arguments Throw {A} e.
Arguments Await {A} r k.

Notation "'await' x <- r ; k" := (Await r (fun x => k))
  (at level 10, x name, r at level 10, k at level 200).

(** How a promise settles: fulfilled with a value or rejected. *)
Inductive Outcome (A : Type) : Type :=
| Returned (a : A)
| Thrown (e : Exception).

Arguments Returned {A} a.
Arguments Thrown {A} e.

(** The collaborators of a run in which every awaited promise fulfils:
    the value each request is answered with. *)
Definition Collaborators : Type := forall r : Request, Response r.

(** Running a body against such collaborators: the requests issued, in
    order, and the outcome. *)
Fixpoint run {A : Type} (world : Collaborators) (p : Prog A)
  : list Request * Outcome A :=
  match p with
  | Return a => ([], Returned a)
  | Throw e => ([], Thrown e)
  | Await r k =>
      let result := run world (k (world r)) in
      (r :: fst result, snd result)
  end.

(** How an awaited promise settles. *)
Inductive Settlement (A : Type) : Type :=
| Fulfilled (value : A)
| Rejected (reason : string).

Arguments Fulfilled {A} value.
Arguments Rejected {A} reason.

(** The collaborators in general: how the promise of each request
    settles. *)
Definition Promises : Type := forall r : Request, Settlement (Response r).

(** Running a body against them: [await] goes on with the value of a
    fulfilled promise and throws the reason of a rejected one, and
    nothing in [call] catches it. *)
Fixpoint run_settled {A : Type} (world : Promises) (p : Prog A)
  : list Request * Outcome A :=
  match p with
  | Return a => ([], Returned a)
  | Throw e => ([], Thrown e)
  | Await r k =>
      match world r with
      | Fulfilled value =>
          let result := run_settled world (k value) in
          (r :: fst result, snd result)
      | Rejected reason => ([r], Thrown (Rejection reason))
      end
  end.

(** Collaborators whose promises all fulfil. *)
Definition fulfilling (world : Collaborators) : Promises :=
  fun r => Fulfilled (world r).

Definition is_write (r : Request) : bool :=
  match r with
  | organizationTemplate_create _ => true
  | _ => false
  end.

Definition is_read (r : Request) : bool :=
  match r with
  | gitHubAppAuthorization_findUnique _ | template_findUnique _ => true
  | _ => false
  end.

Definition is_external_call (r : Request) : bool :=
  match r with
  | createRepositoryFromTemplate _ _ => true
  | _ => false
  end.

Definition writes (trace : list Request) : list Request := filter is_write trace.

(** ** AddTemplateService.call *)

Inductive CallResult : Type :=
| error (message : string)
| success (template : OrganizationTemplate.t).

(** What the module imports: [generateErrorMessage] of zod-error;
    [octokit] of githubApp.server, undefined when the GitHub App is not
    configured; [AccountSchema.safeParse] of githubApp.server, with
    [None] when [success] is false; and the host parser of the
    platform's URL parser. *)
Record Imports : Type := {
  generateErrorMessage : list ZodIssue -> string;
  octokit : option Octokit;
  AccountSchema_safeParse : JsValue -> option Account.t;
  host_parser : string -> bool -> bool }.

(** [new URL(input)]; [None] stands for the TypeError it throws. *)
Definition new_URL (env : Imports) (input : string) : option URL.url :=
  URL.basic_URL_parser (host_parser env) input.

(** lines 28-145 *)
Definition call (env : Imports) (userId organizationSlug : string)
    (payload : JsValue) : Prog CallResult :=
  match safeParse FormSchema payload with
  | SafeParseError issues => Return (error (generateErrorMessage env issues))
  | SafeParseSuccess data =>
  let data_name := string_of (get data "name") in
  let data_templateId := string_of (get data "templateId") in
  let data_private := get data "private" in
  let data_appAuthorizationId := string_of (get data "appAuthorizationId") in
  await appAuthorization <- gitHubAppAuthorization_findUnique data_appAuthorizationId;
  match appAuthorization with
  | None => Return (error "App authorization not found")
  | Some appAuthorization =>
  await template <- template_findUnique data_templateId;
  match template with
  | None => Return (error "Template not found")
  | Some template =>
  match octokit env with
  | None => Return (error "GitHub App not configured")
  | Some _ =>
  match AccountSchema_safeParse env
          (GitHubAppAuthorization.account appAuthorization) with
  | None => Return (error "Account not found")
  | Some account =>
  match new_URL env (Template.repositoryUrl template) with
  | None => Throw (TypeError "Invalid URL")
  | Some repositoryUrl =>
  let (template_owner, template_repo) :=
    destructure2 (slice1 (split "/" (URL.pathname repositoryUrl))) in
  await githubRepository <-
    createRepositoryFromTemplate
      {| CreateRepositoryParams.template_owner := template_owner;
         CreateRepositoryParams.template_repo := template_repo;
         CreateRepositoryParams.owner := Account.login account;
         CreateRepositoryParams.name := data_name;
         CreateRepositoryParams.private := strict_eq_string data_private "on" |}
      (GitHubAppAuthorization.installationId appAuthorization);
  match githubRepository with
  | None => Return (error "Failed to create repository")
  | Some githubRepository =>
  await organizationTemplate <-
    organizationTemplate_create
      {| OrganizationTemplateCreateInput.name := data_name;
         OrganizationTemplateCreateInput.repositoryUrl :=
           GithubRepository.html_url githubRepository;
         OrganizationTemplateCreateInput.repositoryData := githubRepository;
         OrganizationTemplateCreateInput.template := connect_id data_templateId;
         OrganizationTemplateCreateInput.private :=
           strict_eq_string data_private "on";
         OrganizationTemplateCreateInput.organization :=
           connect_slug organizationSlug;
         OrganizationTemplateCreateInput.authorization :=
           connect_id data_appAuthorizationId |};
  Return (success organizationTemplate)
  end end end end end end end.

(** ** What the claims speak about *)

(** The shape the schema is said to accept: an object whose [name] is
    a string of 3 to 100 code units, whose [templateId] and
    [appAuthorizationId] are strings, and whose [private] is absent or
    the literal "on". *)
Definition is_string (v : JsValue) : bool :=
  match v with JsString _ => true | _ => false end.

Definition has_form_shape (payload : JsValue) : bool :=
  match payload with
  | JsObject props =>
      match prop "name" props with
      | JsString name =>
          Nat.leb 3 (String.length name) && Nat.leb (String.length name) 100
      | _ => false
      end
      && is_string (prop "templateId" props)
      && match prop "private" props with
         | JsUndefined => true
         | marker => strict_eq_string marker "on"
         end
      && is_string (prop "appAuthorizationId" props)
  | _ => false
  end.

(** All the violations of a payload: those of every key of the shape,
    in the order of the shape; a payload that is no object has one. *)
Definition field_issues (props : list (string * JsValue))
    (field : string * ZodType) : list ZodIssue :=
  fst (_parse (snd field) [fst field] (prop (fst field) props)).

Definition violations (payload : JsValue) : list ZodIssue :=
  match payload with
  | JsObject props =>
      match FormSchema with
      | ZodObject shape => flat_map (field_issues props) shape
      | _ => []
      end
  | _ => [mkIssue (invalid_type zpt_object (getParsedType payload)) []]
  end.

Definition no_slash (s : string) : bool :=
  URL.all_chars (fun c => negb (Ascii.eqb c "/")) s.

(** The path segments of a URL: an opaque path is one segment. *)
Definition path_segments (u : URL.url) : list string :=
  match URL.path u with
  | URL.Opaque segment => [segment]
  | URL.Segments segments => segments
  end.

Definition non_empty_segments (u : URL.url) : list string :=
  filter (fun s => negb (String.eqb s "")) (path_segments u).

(** The requests of a run, named after the parsed payload. *)
Definition authorization_request (data : JsValue) : Request :=
  gitHubAppAuthorization_findUnique (string_of (get data "appAuthorizationId")).

Definition template_request (data : JsValue) : Request :=
  template_findUnique (string_of (get data "templateId")).

Definition repository_params (data : JsValue) (account : Account.t)
    (template_owner template_repo : option string) : CreateRepositoryParams.t :=
  {| CreateRepositoryParams.template_owner := template_owner;
     CreateRepositoryParams.template_repo := template_repo;
     CreateRepositoryParams.owner := Account.login account;
     CreateRepositoryParams.name := string_of (get data "name");
     CreateRepositoryParams.private := strict_eq_string (get data "private") "on" |}.

Definition repository_request (data : JsValue)
    (appAuthorization : GitHubAppAuthorization.t) (account : Account.t)
    (repositoryUrl : URL.url) : Request :=
  createRepositoryFromTemplate
    (repository_params data account
       (nth_error (slice1 (split "/" (URL.pathname repositoryUrl))) 0)
       (nth_error (slice1 (split "/" (URL.pathname repositoryUrl))) 1))
    (GitHubAppAuthorization.installationId appAuthorization).

Definition create_input (organizationSlug : string) (data : JsValue)
    (githubRepository : GithubRepository.t) : OrganizationTemplateCreateInput.t :=
  {| OrganizationTemplateCreateInput.name := string_of (get data "name");
     OrganizationTemplateCreateInput.repositoryUrl :=
       GithubRepository.html_url githubRepository;
     OrganizationTemplateCreateInput.repositoryData := githubRepository;
     OrganizationTemplateCreateInput.template :=
       connect_id (string_of (get data "templateId"));
     OrganizationTemplateCreateInput.private :=
       strict_eq_string (get data "private") "on";
     OrganizationTemplateCreateInput.organization := connect_slug organizationSlug;
     OrganizationTemplateCreateInput.authorization :=
       connect_id (string_of (get data "appAuthorizationId")) |}.

(** The eight ways through [call], each with the requests it issues
    and its outcome. *)
Inductive call_path (env : Imports) (world : Collaborators)
    (organizationSlug : string) (payload : JsValue)
  : list Request * Outcome CallResult -> Prop :=
| invalid_payload issues :
    safeParse FormSchema payload = SafeParseError issues ->
    call_path env world organizationSlug payload
      ([], Returned (error (generateErrorMessage env issues)))
| no_authorization data :
    safeParse FormSchema payload = SafeParseSuccess data ->
    world (authorization_request data) = None ->
    call_path env world organizationSlug payload
      ([authorization_request data],
       Returned (error "App authorization not found"))
| no_template data appAuthorization :
    safeParse FormSchema payload = SafeParseSuccess data ->
    world (authorization_request data) = Some appAuthorization ->
    world (template_request data) = None ->
    call_path env world organizationSlug payload
      ([authorization_request data; template_request data],
       Returned (error "Template not found"))
| not_configured data appAuthorization template :
    safeParse FormSchema payload = SafeParseSuccess data ->
    world (authorization_request data) = Some appAuthorization ->
    world (template_request data) = Some template ->
    octokit env = None ->
    call_path env world organizationSlug payload
      ([authorization_request data; template_request data],
       Returned (error "GitHub App not configured"))
| no_account data appAuthorization template client :
    safeParse FormSchema payload = SafeParseSuccess data ->
    world (authorization_request data) = Some appAuthorization ->
    world (template_request data) = Some template ->
    octokit env = Some client ->
    AccountSchema_safeParse env (GitHubAppAuthorization.account appAuthorization)
      = None ->
    call_path env world organizationSlug payload
      ([authorization_request data; template_request data],
       Returned (error "Account not found"))
| invalid_url data appAuthorization template client account :
    safeParse FormSchema payload = SafeParseSuccess data ->
    world (authorization_request data) = Some appAuthorization ->
    world (template_request data) = Some template ->
    octokit env = Some client ->
    AccountSchema_safeParse env (GitHubAppAuthorization.account appAuthorization)
      = Some account ->
    new_URL env (Template.repositoryUrl template) = None ->
    call_path env world organizationSlug payload
      ([authorization_request data; template_request data],
       Thrown (TypeError "Invalid URL"))
| no_repository data appAuthorization template client account repositoryUrl :
    safeParse FormSchema payload = SafeParseSuccess data ->
    world (authorization_request data) = Some appAuthorization ->
    world (template_request data) = Some template ->
    octokit env = Some client ->
    AccountSchema_safeParse env (GitHubAppAuthorization.account appAuthorization)
      = Some account ->
    new_URL env (Template.repositoryUrl template) = Some repositoryUrl ->
    world (repository_request data appAuthorization account repositoryUrl) = None ->
    call_path env world organizationSlug payload
      ([authorization_request data; template_request data;
        repository_request data appAuthorization account repositoryUrl],
       Returned (error "Failed to create repository"))
| created data appAuthorization template client account repositoryUrl
    githubRepository :
    safeParse FormSchema payload = SafeParseSuccess data ->
    world (authorization_request data) = Some appAuthorization ->
    world (template_request data) = Some template ->
    octokit env = Some client ->
    AccountSchema_safeParse env (GitHubAppAuthorization.account appAuthorization)
      = Some account ->
    new_URL env (Template.repositoryUrl template) = Some repositoryUrl ->
    world (repository_request data appAuthorization account repositoryUrl)
      = Some githubRepository ->
    call_path env world organizationSlug payload
      ([authorization_request data; template_request data;
        repository_request data appAuthorization account repositoryUrl;
        organizationTemplate_create
          (create_input organizationSlug data githubRepository)],
       Returned
         (success
            (world (organizationTemplate_create
                      (create_input organizationSlug data githubRepository))))).

(** The external call was issued in [trace] and returned a repository. *)
Definition external_call_succeeded (world : Collaborators) (trace : list Request)
  : bool :=
  existsb
    (fun r =>
       match r with
       | createRepositoryFromTemplate params installationId =>
           match world (createRepositoryFromTemplate params installationId) with
           | Some _ => true
           | None => false
           end
       | _ => false
       end)
    trace.

(** The requests of a trace other than the write. *)
Definition before_write (trace : list Request) : list Request :=
  filter (fun r => negb (is_write r)) trace.

(** ** Example collaborators and inputs *)

Definition connected (c : Connect) : string :=
  match c with
  | connect_id id => id
  | connect_slug slug => slug
  end.

(** A database of at most one authorization and one template, found by
    their id, a GitHub API that answers every call with [repository],
    and a create that stores what it is given. *)
Definition example_world (authorization : option GitHubAppAuthorization.t)
    (template : option Template.t) (repository : option GithubRepository.t)
  : Collaborators :=
  fun r =>
    match r with
    | gitHubAppAuthorization_findUnique id =>
        match authorization with
        | Some a => if String.eqb (GitHubAppAuthorization.id a) id then Some a else None
        | None => None
        end
    | template_findUnique id =>
        match template with
        | Some t => if String.eqb (Template.id t) id then Some t else None
        | None => None
        end
    | createRepositoryFromTemplate _ _ => repository
    | organizationTemplate_create data =>
        {| OrganizationTemplate.id := "ot_1";
           OrganizationTemplate.name := OrganizationTemplateCreateInput.name data;
           OrganizationTemplate.repositoryUrl :=
             OrganizationTemplateCreateInput.repositoryUrl data;
           OrganizationTemplate.repositoryData :=
             OrganizationTemplateCreateInput.repositoryData data;
           OrganizationTemplate.private :=
             OrganizationTemplateCreateInput.private data;
           OrganizationTemplate.templateId :=
             connected (OrganizationTemplateCreateInput.template data);
           OrganizationTemplate.organizationId :=
             connected (OrganizationTemplateCreateInput.organization data);
           OrganizationTemplate.authorizationId :=
             connected (OrganizationTemplateCreateInput.authorization data) |}
    end.

Definition example_account_schema (v : JsValue) : option Account.t :=
  match get v "login" with
  | JsString login => Some (Account.make login)
  | _ => None
  end.

Definition example_message (issues : list ZodIssue) : string :=
  String.concat "; " (map (fun i => String.concat "." (path i)) issues).

Definition example_env (client : option Octokit) : Imports :=
  {| generateErrorMessage := example_message;
     octokit := client;
     AccountSchema_safeParse := example_account_schema;
     host_parser := URL.ascii_domain_host_parser |}.

Definition example_payload : JsValue :=
  JsObject [ ("name", JsString "new-repo"); ("templateId", JsString "tpl_1");
             ("private", JsString "on"); ("appAuthorizationId", JsString "auth_1") ].

Definition example_payload_public : JsValue :=
  JsObject [ ("name", JsString "new-repo"); ("templateId", JsString "tpl_1");
             ("appAuthorizationId", JsString "auth_1") ].

Definition example_invalid_payload : JsValue :=
  JsObject [ ("name", JsString ""); ("appAuthorizationId", JsString "auth_1") ].

Definition example_authorization : GitHubAppAuthorization.t :=
  GitHubAppAuthorization.make "auth_1" 42 (JsObject [("login", JsString "acme")]).

Definition example_authorization_no_account : GitHubAppAuthorization.t :=
  GitHubAppAuthorization.make "auth_1" 42 JsNull.

Definition example_template (repositoryUrl : string) : Template.t :=
  Template.make "tpl_1" repositoryUrl.

Definition example_repository : GithubRepository.t :=
  GithubRepository.make "https://github.com/acme/new-repo"
    [("full_name", JsString "acme/new-repo")].

Definition example_params (template_owner template_repo : option string)
  : CreateRepositoryParams.t :=
  {| CreateRepositoryParams.template_owner := template_owner;
     CreateRepositoryParams.template_repo := template_repo;
     CreateRepositoryParams.owner := "acme";
     CreateRepositoryParams.name := "new-repo";
     CreateRepositoryParams.private := true |}.

Definition env_configured : Imports := example_env (Some OctokitClient).
Definition env_unconfigured : Imports := example_env None.

(** Everything in place: the template at
    "https://github.com/acme/base-starter", and GitHub creates the
    repository. *)
Definition world_created : Collaborators :=
  example_world (Some example_authorization)
    (Some (example_template "https://github.com/acme/base-starter"))
    (Some example_repository).

(** Neither the authorization nor the template is in the database. *)
Definition world_empty : Collaborators := example_world None None None.

Definition world_no_template : Collaborators :=
  example_world (Some example_authorization) None None.

Definition world_no_account : Collaborators :=
  example_world (Some example_authorization_no_account)
    (Some (example_template "https://github.com/acme/base-starter")) None.

(** GitHub does not create the repository. *)
Definition world_github_fails : Collaborators :=
  example_world (Some example_authorization)
    (Some (example_template "https://github.com/acme/base-starter")) None.

(** Templates whose repositoryUrl has no scheme, an opaque path, a
    trailing slash, and no path. *)
Definition world_template_at (repositoryUrl : string) : Collaborators :=
  example_world (Some example_authorization)
    (Some (example_template repositoryUrl)) (Some example_repository).

(** ** More of what the code shows *)

(** The keys of FormSchema, and when a value is valid for [name] and
    for [private]. *)
Definition form_keys : list string :=
  ["name"; "templateId"; "private"; "appAuthorizationId"].

Definition valid_name (v : JsValue) : bool :=
  match v with
  | JsString name =>
      Nat.leb 3 (String.length name) && Nat.leb (String.length name) 100
  | _ => false
  end.

Definition valid_private (v : JsValue) : bool :=
  match v with
  | JsUndefined => true
  | marker => strict_eq_string marker "on"
  end.

(** An issue of [issues] is at the key [key]. *)
Definition reported (key : string) (issues : list ZodIssue) : bool :=
  existsb
    (fun i => match path i with
              | [k] => String.eqb k key
              | _ => false
              end)
    issues.

(** The external call was issued in [trace] and returned nothing. *)
Definition external_call_failed (world : Collaborators) (trace : list Request)
  : bool :=
  existsb
    (fun r =>
       match r with
       | createRepositoryFromTemplate params installationId =>
           match world (createRepositoryFromTemplate params installationId) with
           | Some _ => false
           | None => true
           end
       | _ => false
       end)
    trace.


(** The issues of one key: none when its value is valid, one at the
    key when it is not. *)
Definition none_or_one_issue (valid : bool) (key : string)
    (issues : list ZodIssue) : Prop :=
  (valid = true /\ issues = [])
  \/ (valid = false /\ exists c, issues = [mkIssue c [key]]).

(** The example payload with a key the schema does not know, and with
    a [private] that is not "on". *)
Definition example_payload_extra_key : JsValue :=
  JsObject [ ("intent", JsString "add-template");
             ("name", JsString "new-repo"); ("templateId", JsString "tpl_1");
             ("private", JsString "on"); ("appAuthorizationId", JsString "auth_1") ].

Definition example_props_private_off : list (string * JsValue) :=
  [ ("name", JsString "new-repo"); ("templateId", JsString "tpl_1");
    ("private", JsString "off"); ("appAuthorizationId", JsString "auth_1") ].

(** ** Runs in which a promise may reject *)


Definition fulfilled (world : Promises) (r : Request) : bool :=
  match world r with
  | Fulfilled _ => true
  | Rejected _ => false
  end.

(** The external call was issued in [trace] and its promise fulfilled
    with a repository. *)
Definition repository_returned (world : Promises) (trace : list Request) : bool :=
  existsb
    (fun r =>
       match r with
       | createRepositoryFromTemplate params installationId =>
           match world (createRepositoryFromTemplate params installationId) with
           | Fulfilled (Some _) => true
           | _ => false
           end
       | _ => false
       end)
    trace.

(** A record was persisted: a create was issued in [trace] and its
    promise fulfilled. *)
Definition persisted (world : Promises) (trace : list Request) : bool :=
  existsb (fun r => is_write r && fulfilled world r) trace.

(** [call] gets as far as line 91 and [new URL] throws there. *)
Definition new_URL_throws (env : Imports) (world : Promises) (payload : JsValue)
  : Prop :=
  exists data appAuthorization template client account,
    safeParse FormSchema payload = SafeParseSuccess data
    /\ world (authorization_request payload) = Fulfilled (Some appAuthorization)
    /\ world (template_request payload) = Fulfilled (Some template)
    /\ octokit env = Some client
    /\ AccountSchema_safeParse env
         (GitHubAppAuthorization.account appAuthorization) = Some account
    /\ new_URL env (Template.repositoryUrl template) = None.

(** The twelve ways through [call] when a promise may reject: the
    eight of [call_path], and one for each of the four awaits whose
    promise rejects. *)
Inductive settled_path (env : Imports) (world : Promises)
    (organizationSlug : string) (payload : JsValue)
  : list Request * Outcome CallResult -> Prop :=
| settled_invalid_payload issues :
    safeParse FormSchema payload = SafeParseError issues ->
    settled_path env world organizationSlug payload
      ([], Returned (error (generateErrorMessage env issues)))
| authorization_rejects data reason :
    safeParse FormSchema payload = SafeParseSuccess data ->
    world (authorization_request data) = Rejected reason ->
    settled_path env world organizationSlug payload
      ([authorization_request data], Thrown (Rejection reason))
| settled_no_authorization data :
    safeParse FormSchema payload = SafeParseSuccess data ->
    world (authorization_request data) = Fulfilled None ->
    settled_path env world organizationSlug payload
      ([authorization_request data],
       Returned (error "App authorization not found"))
| template_rejects data appAuthorization reason :
    safeParse FormSchema payload = SafeParseSuccess data ->
    world (authorization_request data) = Fulfilled (Some appAuthorization) ->
    world (template_request data) = Rejected reason ->
    settled_path env world organizationSlug payload
      ([authorization_request data; template_request data],
       Thrown (Rejection reason))
| settled_no_template data appAuthorization :
    safeParse FormSchema payload = SafeParseSuccess data ->
    world (authorization_request data) = Fulfilled (Some appAuthorization) ->
    world (template_request data) = Fulfilled None ->
    settled_path env world organizationSlug payload
      ([authorization_request data; template_request data],
       Returned (error "Template not found"))
| settled_not_configured data appAuthorization template :
    safeParse FormSchema payload = SafeParseSuccess data ->
    world (authorization_request data) = Fulfilled (Some appAuthorization) ->
    world (template_request data) = Fulfilled (Some template) ->
    octokit env = None ->
    settled_path env world organizationSlug payload
      ([authorization_request data; template_request data],
       Returned (error "GitHub App not configured"))
| settled_no_account data appAuthorization template client :
    safeParse FormSchema payload = SafeParseSuccess data ->
    world (authorization_request data) = Fulfilled (Some appAuthorization) ->
    world (template_request data) = Fulfilled (Some template) ->
    octokit env = Some client ->
    AccountSchema_safeParse env (GitHubAppAuthorization.account appAuthorization)
      = None ->
    settled_path env world organizationSlug payload
      ([authorization_request data; template_request data],
       Returned (error "Account not found"))
| settled_invalid_url data appAuthorization template client account :
    safeParse FormSchema payload = SafeParseSuccess data ->
    world (authorization_request data) = Fulfilled (Some appAuthorization) ->
    world (template_request data) = Fulfilled (Some template) ->
    octokit env = Some client ->
    AccountSchema_safeParse env (GitHubAppAuthorization.account appAuthorization)
      = Some account ->
    new_URL env (Template.repositoryUrl template) = None ->
    settled_path env world organizationSlug payload
      ([authorization_request data; template_request data],
       Thrown (TypeError "Invalid URL"))
| repository_rejects data appAuthorization template client account
    repositoryUrl reason :
    safeParse FormSchema payload = SafeParseSuccess data ->
    world (authorization_request data) = Fulfilled (Some appAuthorization) ->
    world (template_request data) = Fulfilled (Some template) ->
    octokit env = Some client ->
    AccountSchema_safeParse env (GitHubAppAuthorization.account appAuthorization)
      = Some account ->
    new_URL env (Template.repositoryUrl template) = Some repositoryUrl ->
    world (repository_request data appAuthorization account repositoryUrl)
      = Rejected reason ->
    settled_path env world organizationSlug payload
      ([authorization_request data; template_request data;
        repository_request data appAuthorization account repositoryUrl],
       Thrown (Rejection reason))
| settled_no_repository data appAuthorization template client account
    repositoryUrl :
    safeParse FormSchema payload = SafeParseSuccess data ->
    world (authorization_request data) = Fulfilled (Some appAuthorization) ->
    world (template_request data) = Fulfilled (Some template) ->
    octokit env = Some client ->
    AccountSchema_safeParse env (GitHubAppAuthorization.account appAuthorization)
      = Some account ->
    new_URL env (Template.repositoryUrl template) = Some repositoryUrl ->
    world (repository_request data appAuthorization account repositoryUrl)
      = Fulfilled None ->
    settled_path env world organizationSlug payload
      ([authorization_request data; template_request data;
        repository_request data appAuthorization account repositoryUrl],
       Returned (error "Failed to create repository"))
| create_rejects data appAuthorization template client account repositoryUrl
    githubRepository reason :
    safeParse FormSchema payload = SafeParseSuccess data ->
    world (authorization_request data) = Fulfilled (Some appAuthorization) ->
    world (template_request data) = Fulfilled (Some template) ->
    octokit env = Some client ->
    AccountSchema_safeParse env (GitHubAppAuthorization.account appAuthorization)
      = Some account ->
    new_URL env (Template.repositoryUrl template) = Some repositoryUrl ->
    world (repository_request data appAuthorization account repositoryUrl)
      = Fulfilled (Some githubRepository) ->
    world (organizationTemplate_create
             (create_input organizationSlug data githubRepository))
      = Rejected reason ->
    settled_path env world organizationSlug payload
      ([authorization_request data; template_request data;
        repository_request data appAuthorization account repositoryUrl;
        organizationTemplate_create
          (create_input organizationSlug data githubRepository)],
       Thrown (Rejection reason))
| settled_created data appAuthorization template client account repositoryUrl
    githubRepository organizationTemplate :
    safeParse FormSchema payload = SafeParseSuccess data ->
    world (authorization_request data) = Fulfilled (Some appAuthorization) ->
    world (template_request data) = Fulfilled (Some template) ->
    octokit env = Some client ->
    AccountSchema_safeParse env (GitHubAppAuthorization.account appAuthorization)
      = Some account ->
    new_URL env (Template.repositoryUrl template) = Some repositoryUrl ->
    world (repository_request data appAuthorization account repositoryUrl)
      = Fulfilled (Some githubRepository) ->
    world (organizationTemplate_create
             (create_input organizationSlug data githubRepository))
      = Fulfilled organizationTemplate ->
    settled_path env world organizationSlug payload
      ([authorization_request data; template_request data;
        repository_request data appAuthorization account repositoryUrl;
        organizationTemplate_create
          (create_input organizationSlug data githubRepository)],
       Returned (success organizationTemplate)).

(** The collaborators of [world], with a create that rejects: the
    organization to connect does not exist. *)
Definition with_rejecting_create (world : Collaborators) : Promises :=
  fun r =>
    match r with
    | gitHubAppAuthorization_findUnique id =>
        Fulfilled (world (gitHubAppAuthorization_findUnique id))
    | template_findUnique id => Fulfilled (world (template_findUnique id))
    | createRepositoryFromTemplate params installationId =>
        Fulfilled (world (createRepositoryFromTemplate params installationId))
    | organizationTemplate_create _ => Rejected "No Organization found"
    end.

(** A database that cannot be reached: every lookup rejects. *)
Definition with_rejecting_lookups (world : Collaborators) : Promises :=
  fun r =>
    match r with
    | gitHubAppAuthorization_findUnique _ => Rejected "Can't reach database server"
    | template_findUnique _ => Rejected "Can't reach database server"
    | createRepositoryFromTemplate params installationId =>
        Fulfilled (world (createRepositoryFromTemplate params installationId))
    | organizationTemplate_create data =>
        Fulfilled (world (organizationTemplate_create data))
    end.

(** GitHub creates the repository and the create rejects; the
    database cannot be reached. *)
Definition world_create_rejects : Promises := with_rejecting_create world_created.
Definition world_unreachable : Promises := with_rejecting_lookups world_created.

(** ** The schema *)

Lemma safeParse_FormSchema_spec (payload : JsValue) :
  match safeParse FormSchema payload with
  | SafeParseSuccess data =>
      has_form_shape payload = true
      /\ get data "name" = get payload "name"
      /\ get data "templateId" = get payload "templateId"
      /\ get data "private" = get payload "private"
      /\ get data "appAuthorizationId" = get payload "appAuthorizationId"
  | SafeParseError issues =>
      has_form_shape payload = false /\ issues <> [] /\ issues = violations payload
  end.
Proof.
  destruct payload as [| | b | n | s | items | props];
    try (cbn; repeat split; congruence).
  unfold safeParse, violations, FormSchema, has_form_shape, field_issues, get.
  cbn [_parse fst snd flat_map app option_map].
  destruct (prop "name" props) as [| | b | n | name | items | ps] eqn:Hname;
    try (cbn; repeat split; congruence).
  cbn [check_string flat_map].
  destruct (Nat.ltb (String.length name) 3) eqn:Hmin.
  { apply Nat.ltb_lt in Hmin.
    assert (Nat.leb 3 (String.length name) = false) as -> by (apply Nat.leb_gt; lia).
    cbn. repeat split; congruence. }
  destruct (Nat.ltb 100 (String.length name)) eqn:Hmax.
  { apply Nat.ltb_lt in Hmax.
    assert (Nat.leb (String.length name) 100 = false) as -> by (apply Nat.leb_gt; lia).
    rewrite andb_false_r. cbn. repeat split; congruence. }
  apply Nat.ltb_ge in Hmin, Hmax.
  assert (Nat.leb 3 (String.length name) = true) as -> by (apply Nat.leb_le; lia).
  assert (Nat.leb (String.length name) 100 = true) as -> by (apply Nat.leb_le; lia).
  cbn [app andb].
  destruct (prop "templateId" props) as [| | b | n | tid | items | ps] eqn:Htid;
    try (cbn; repeat split; congruence).
  cbn [app is_string andb].
  destruct (prop "private" props) as [| | b' | n' | mark | items' | ps'] eqn:Hpriv;
    cbn [strict_eq_string];
    try destruct (String.eqb mark "on") eqn:Hon;
    try destruct (has_prop "private" props);
    destruct (prop "appAuthorizationId" props) as [| | b | n | aid | items | ps] eqn:Haid;
    cbn; repeat split; congruence.
Qed.

(** ** The URL parser never leaves a "/" inside a path segment *)

Module URLFacts.
Import URL.

Lemma no_slash_app (a b : string) :
  no_slash (a ++ b) = no_slash a && no_slash b.
Proof.
  induction a as [| c a IH]; cbn; [reflexivity |].
  unfold no_slash in IH. now rewrite IH, andb_assoc.
Qed.

Lemma utf8_percent_encode_no_slash (c : ascii) :
  no_slash (utf8_percent_encode c) = true.
Proof.
  destruct c as [[] [] [] [] [] [] [] []]; vm_compute; reflexivity.
Qed.

Lemma percent_encode_no_slash (set : ascii -> bool) (c : ascii) :
  Ascii.eqb c "/" = false -> no_slash (percent_encode set c) = true.
Proof.
  intros Hc. unfold percent_encode. destruct (set c).
  - apply utf8_percent_encode_no_slash.
  - cbn. now rewrite Hc.
Qed.

Lemma forallb_removelast {A : Type} (f : A -> bool) (l : list A) :
  forallb f l = true -> forallb f (removelast l) = true.
Proof.
  induction l as [| x [| y l] IH]; cbn; intros H; try reflexivity.
  apply andb_true_iff in H as [Hx H]. rewrite Hx. now apply IH.
Qed.

Lemma forallb_snoc {A : Type} (f : A -> bool) (l : list A) (x : A) :
  forallb f l = true -> f x = true -> forallb f (l ++ [x]) = true.
Proof.
  intros Hl Hx. rewrite forallb_app, Hl. cbn. now rewrite Hx.
Qed.

Lemma shorten_no_slash (scheme : string) (segments : list string) :
  forallb no_slash segments = true ->
  forallb no_slash (shorten scheme segments) = true.
Proof.
  intros H. unfold shorten.
  destruct segments as [| only [| second rest]]; try reflexivity.
  - now destruct (_ && _).
  - now apply forallb_removelast.
Qed.

Lemma alpha_not_slash (c : ascii) : is_alpha c = true -> Ascii.eqb c "/" = false.
Proof.
  destruct c as [[] [] [] [] [] [] [] []]; vm_compute; congruence.
Qed.

Lemma drive_letter_no_slash (s : string) :
  is_windows_drive_letter s = true ->
  no_slash s = true /\ no_slash (normalize_drive_letter s) = true.
Proof.
  destruct s as [| a [| b [| c s]]]; cbn; try discriminate.
  intros H. apply andb_true_iff in H as [Ha Hb].
  rewrite (alpha_not_slash a Ha). cbn.
  apply orb_true_iff in Hb as [Hb | Hb]; apply Ascii.eqb_eq in Hb; subst b;
    now split.
Qed.

Lemma Some_no_slash (produced segments : list string) :
  forallb no_slash produced = true ->
  Some produced = Some segments -> forallb no_slash segments = true.
Proof. now intros H [= <-]. Qed.

Section States.

Variable scheme : string.
Variable host_parser : string -> bool -> bool.

Lemma end_segment_no_slash (segments : list string) (buffer : string) (slash : bool) :
  forallb no_slash segments = true -> no_slash buffer = true ->
  forallb no_slash (end_segment scheme segments buffer slash) = true.
Proof.
  intros Hs Hb. unfold end_segment.
  destruct (is_double_dot buffer).
  { destruct slash; [| apply forallb_snoc; [| reflexivity]];
      now apply shorten_no_slash. }
  destruct (is_single_dot buffer).
  { destruct slash; [assumption | now apply forallb_snoc]. }
  destruct (_ && is_windows_drive_letter buffer) eqn:Hd.
  - apply andb_true_iff in Hd as [_ Hd].
    apply forallb_snoc; [assumption | now apply drive_letter_no_slash].
  - now apply forallb_snoc.
Qed.

Lemma is_slash_false (c : ascii) :
  is_slash scheme c = false -> Ascii.eqb c "/" = false.
Proof.
  unfold is_slash. intros H. now apply orb_false_iff in H as [H _].
Qed.

Lemma path_state_no_slash (input : string) :
  forall (segments : list string) (buffer : string),
    forallb no_slash segments = true -> no_slash buffer = true ->
    forallb no_slash (path_state scheme segments buffer input) = true.
Proof.
  induction input as [| c rest IH]; intros segments buffer Hs Hb;
    cbn [path_state].
  - now apply end_segment_no_slash.
  - destruct (is_slash scheme c) eqn:Hc.
    + apply IH; [now apply end_segment_no_slash | reflexivity].
    + destruct (_ || _).
      * now apply end_segment_no_slash.
      * apply IH; [assumption |].
        rewrite no_slash_app, Hb.
        now rewrite percent_encode_no_slash by now apply is_slash_false.
Qed.

Lemma path_start_state_no_slash (input : string) :
  forallb no_slash (path_start_state scheme input) = true.
Proof.
  unfold path_start_state.
  destruct input as [| c rest].
  - destruct (is_special scheme); [now apply path_state_no_slash | reflexivity].
  - destruct (is_special scheme).
    + destruct (_ || _); now apply path_state_no_slash.
    + destruct (_ || _); [reflexivity |].
      destruct (Ascii.eqb c "/"); now apply path_state_no_slash.
Qed.

Lemma port_state_no_slash (input : string) :
  forall port segments,
    port_state scheme port input = Some segments ->
    forallb no_slash segments = true.
Proof.
  induction input as [| c rest IH]; intros port segments; cbn [port_state].
  - destruct (_ <? _)%N; [discriminate |].
    apply Some_no_slash, path_start_state_no_slash.
  - destruct (is_digit c); [apply IH |].
    destruct (ends_authority scheme c); [| discriminate].
    destruct (_ <? _)%N; [discriminate |].
    apply Some_no_slash, path_start_state_no_slash.
Qed.

Lemma host_state_no_slash (input : string) :
  forall insideBrackets buffer segments,
    host_state scheme host_parser insideBrackets buffer input = Some segments ->
    forallb no_slash segments = true.
Proof.
  induction input as [| c rest IH]; intros inside buffer segments;
    cbn [host_state].
  - destruct (_ && _); [discriminate |].
    destruct (host_parser _ _); [| discriminate].
    apply Some_no_slash, path_start_state_no_slash.
  - destruct (_ && negb inside).
    { destruct (String.eqb buffer ""); [discriminate |].
      destruct (host_parser _ _); [apply port_state_no_slash | discriminate]. }
    destruct (ends_authority scheme c); [| apply IH].
    destruct (_ && _); [discriminate |].
    destruct (host_parser _ _); [| discriminate].
    apply Some_no_slash, path_start_state_no_slash.
Qed.

Lemma authority_state_no_slash (input : string) :
  forall atSignSeen buffer segments,
    authority_state scheme host_parser atSignSeen buffer input = Some segments ->
    forallb no_slash segments = true.
Proof.
  induction input as [| c rest IH]; intros seen buffer segments;
    cbn [authority_state].
  - destruct (_ && _); [discriminate | apply host_state_no_slash].
  - destruct (Ascii.eqb c "@"); [apply IH |].
    destruct (ends_authority scheme c); [| apply IH].
    destruct (_ && _); [discriminate | apply host_state_no_slash].
Qed.

Lemma special_authority_no_slash (input : string) :
  forall segments,
    special_authority_ignore_slashes_state scheme host_parser input = Some segments ->
    forallb no_slash segments = true.
Proof.
  induction input as [| c rest IH]; intros segments;
    cbn [special_authority_ignore_slashes_state].
  - apply authority_state_no_slash.
  - destruct (_ || _); [apply IH | apply authority_state_no_slash].
Qed.

Lemma path_or_authority_no_slash (input : string) (segments : list string) :
  path_or_authority_state scheme host_parser input = Some segments ->
  forallb no_slash segments = true.
Proof.
  unfold path_or_authority_state.
  destruct input as [| c rest].
  - apply Some_no_slash. now apply path_state_no_slash.
  - destruct (Ascii.eqb_spec c "/") as [-> | Hc].
    + apply authority_state_no_slash.
    + assert (Some (path_state scheme [] "" (String c rest)) = Some segments ->
              forallb no_slash segments = true) as Hp.
      { apply Some_no_slash. now apply path_state_no_slash. }
      destruct c as [[] [] [] [] [] [] [] []]; try exact Hp. now contradiction Hc.
Qed.

Lemma file_host_state_no_slash (input : string) :
  forall buffer segments,
    file_host_state scheme host_parser buffer input = Some segments ->
    forallb no_slash segments = true.
Proof.
  assert (forall buffer rest segments,
    (if is_windows_drive_letter buffer
     then Some (path_state scheme [] buffer rest)
     else if String.eqb buffer "" then Some (path_start_state scheme rest)
     else if host_parser buffer false then Some (path_start_state scheme rest)
     else None) = Some segments ->
    forallb no_slash segments = true) as Hend.
  { intros buffer rest segments.
    destruct (is_windows_drive_letter buffer) eqn:Hd.
    - apply Some_no_slash. apply path_state_no_slash; [reflexivity |].
      now apply drive_letter_no_slash.
    - destruct (String.eqb buffer "");
        [| destruct (host_parser buffer false); [| discriminate]];
        apply Some_no_slash, path_start_state_no_slash. }
  induction input as [| c rest IH]; intros buffer segments;
    cbn [file_host_state].
  - apply Hend.
  - destruct (ends_authority scheme c); [apply Hend | apply IH].
Qed.

Lemma file_state_no_slash (input : string) (segments : list string) :
  file_state scheme host_parser input = Some segments ->
  forallb no_slash segments = true.
Proof.
  unfold file_state.
  destruct input as [| c [| d rest]]; repeat (destruct (_ || _));
    try apply file_host_state_no_slash;
    apply Some_no_slash; now apply path_state_no_slash.
Qed.

End States.

Lemma basic_URL_parser_no_slash (host_parser : string -> bool -> bool)
    (input : string) (u : url) (segments : list string) :
  basic_URL_parser host_parser input = Some u ->
  path u = Segments segments ->
  forallb no_slash segments = true.
Proof.
  unfold basic_URL_parser.
  destruct (scheme_start_state _) as [[scheme rest] |]; [| discriminate].
  destruct (String.eqb scheme "file").
  { destruct (file_state _ _ _) as [p |] eqn:Hp; [| discriminate].
    intros [= <-] [= <-]. eapply file_state_no_slash; eassumption. }
  destruct (is_special scheme).
  { destruct (special_authority_ignore_slashes_state _ _ _) as [p |] eqn:Hp;
      [| discriminate].
    intros [= <-] [= <-]. eapply special_authority_no_slash; eassumption. }
  destruct rest as [| c rest]; [intros [= <-]; discriminate |].
  destruct (Ascii.eqb_spec c "/") as [-> | Hc].
  - destruct (path_or_authority_state _ _ _) as [p |] eqn:Hp; [| discriminate].
    intros [= <-] [= <-]. eapply path_or_authority_no_slash; eassumption.
  - destruct c as [[] [] [] [] [] [] [] []];
      try (intros [= <-]; discriminate). now contradiction Hc.
Qed.

End URLFacts.

Lemma split_nonempty (sep : ascii) (s : string) : split sep s <> [].
Proof.
  destruct s as [| c s]; cbn; [discriminate |].
  destruct (Ascii.eqb c sep); [discriminate |].
  destruct (split sep s); discriminate.
Qed.

Lemma split_app_no_slash (s rest : string) :
  no_slash s = true ->
  split "/" (s ++ rest) = (s ++ hd "" (split "/" rest))%string :: tl (split "/" rest).
Proof.
  induction s as [| c s IH]; cbn [append no_slash URL.all_chars]; intros Hs.
  - pose proof (split_nonempty "/" rest). now destruct (split "/" rest).
  - apply andb_true_iff in Hs as [Hc Hs]. apply negb_true_iff in Hc.
    cbn [split]. rewrite Hc. now rewrite (IH Hs).
Qed.

Lemma append_empty_r (s : string) : (s ++ "")%string = s.
Proof. induction s as [| c s IH]; cbn; congruence. Qed.

Lemma split_serialized_path (segments : list string) :
  forallb no_slash segments = true ->
  split "/" (String.concat "" (map (String "/") segments)) = "" :: segments.
Proof.
  induction segments as [| s rest IH]; intros H; [reflexivity |].
  cbn [forallb] in H. apply andb_true_iff in H as [Hs Hrest].
  specialize (IH Hrest). cbn [map String.concat].
  destruct (map (String "/") rest) as [| next others] eqn:Hmap.
  - destruct rest; [| discriminate]. cbn [split Ascii.eqb Bool.eqb].
    rewrite <- (append_empty_r s) at 1.
    rewrite (split_app_no_slash s "" Hs). cbn. now rewrite append_empty_r.
  - cbn [append split Ascii.eqb Bool.eqb].
    rewrite (split_app_no_slash s _ Hs), IH. cbn. now rewrite append_empty_r.
Qed.

Lemma serialized_path_segments (host_parser : string -> bool -> bool)
    (input : string) (u : URL.url) (segments : list string) :
  URL.basic_URL_parser host_parser input = Some u ->
  URL.path u = URL.Segments segments ->
  slice1 (split "/" (URL.pathname u)) = segments.
Proof.
  intros Hparse Hpath. unfold URL.pathname. rewrite Hpath.
  rewrite split_serialized_path; [reflexivity |].
  eapply URLFacts.basic_URL_parser_no_slash; eassumption.
Qed.

(** ** The service *)

Section Properties.

Variable env : Imports.
Variable world : Collaborators.

(** The run of [call] follows one of the eight paths. *)
Lemma run_call_path (userId organizationSlug : string) (payload : JsValue) :
  call_path env world organizationSlug payload
    (run world (call env userId organizationSlug payload)).
Proof.
  unfold call.
  destruct (safeParse FormSchema payload) as [data | issues] eqn:Hparse.
  2: { now apply invalid_payload. }
  cbn [run fst snd].
  destruct (world (gitHubAppAuthorization_findUnique _)) as [auth |] eqn:Hauth.
  2: { now apply no_authorization. }
  cbn [run fst snd].
  destruct (world (template_findUnique _)) as [tpl |] eqn:Htpl.
  2: { now eapply no_template; eauto. }
  destruct (octokit env) as [client |] eqn:Hocto.
  2: { now eapply not_configured; eauto. }
  destruct (AccountSchema_safeParse env _) as [acct |] eqn:Hacct.
  2: { now eapply no_account; eauto. }
  destruct (new_URL env _) as [u |] eqn:Hurl.
  2: { now eapply invalid_url; eauto. }
  cbn [run fst snd destructure2].
  destruct (world (createRepositoryFromTemplate _ _)) as [repo |] eqn:Hrepo.
  2: { now eapply no_repository; eauto. }
  cbn [run fst snd].
  eapply created; eauto.
Qed.

(** A run has one path. *)
Ltac same_answers :=
  repeat match goal with
         | H1 : ?x = _, H2 : ?x = _ |- _ =>
             rewrite H1 in H2;
             first [ discriminate H2 | injection H2 as <- | clear H2 ]
         end.

Lemma call_path_deterministic (organizationSlug : string) (payload : JsValue)
    (r r' : list Request * Outcome CallResult) :
  call_path env world organizationSlug payload r ->
  call_path env world organizationSlug payload r' ->
  r = r'.
Proof.
  intros [] []; same_answers; reflexivity.
Qed.

(** The parsed data holds the payload's four fields. *)
Lemma parsed_fields (payload data : JsValue) :
  safeParse FormSchema payload = SafeParseSuccess data ->
  get data "name" = get payload "name"
  /\ get data "private" = get payload "private"
  /\ get data "templateId" = get payload "templateId"
  /\ get data "appAuthorizationId" = get payload "appAuthorizationId".
Proof.
  intros H. pose proof (safeParse_FormSchema_spec payload) as Hspec.
  rewrite H in Hspec. destruct Hspec as (_ & Hn & Ht & Hp & Ha).
  repeat split; assumption.
Qed.

Ltac to_payload :=
  match goal with
  | Hp : safeParse _ _ = SafeParseSuccess _ |- _ =>
      let Hn := fresh "Hn" in
      let Hm := fresh "Hm" in
      let Ht := fresh "Ht" in
      let Ha := fresh "Ha" in
      destruct (parsed_fields _ _ Hp) as (Hn & Hm & Ht & Ha);
      unfold authorization_request, template_request, repository_request,
        repository_params, create_input in *;
      rewrite ?Hn, ?Hm, ?Ht, ?Ha in *
  end.

Ltac paths userId organizationSlug payload :=
  let H := fresh "Hpath" in
  pose proof (run_call_path userId organizationSlug payload) as H;
  destruct H.

Ltac answered :=
  unfold repository_request in *; cbn [existsb orb];
  repeat match goal with
         | H : world (createRepositoryFromTemplate _ _) = _ |- _ => rewrite H
         end.

(** The external call is issued exactly when the payload is valid,
    both lookups succeed, the client is configured, the account parses
    and the template's URL parses. *)
Lemma external_call_issued
    (userId organizationSlug : string) (payload : JsValue)
    (params : CreateRepositoryParams.t) (installationId : Z) :
  In (createRepositoryFromTemplate params installationId)
     (fst (run world (call env userId organizationSlug payload)))
  <-> exists data appAuthorization template client account repositoryUrl,
      safeParse FormSchema payload = SafeParseSuccess data
      /\ world (authorization_request payload) = Some appAuthorization
      /\ world (template_request payload) = Some template
      /\ octokit env = Some client
      /\ AccountSchema_safeParse env
           (GitHubAppAuthorization.account appAuthorization) = Some account
      /\ new_URL env (Template.repositoryUrl template) = Some repositoryUrl
      /\ createRepositoryFromTemplate params installationId
         = repository_request payload appAuthorization account repositoryUrl.
Proof.
  split.
  - intros Hin.
    paths userId organizationSlug payload; cbn [fst In] in Hin;
      repeat (destruct Hin as [Hin | Hin]; try discriminate Hin);
      try contradiction;
      exists data, appAuthorization, template, client, account, repositoryUrl;
      to_payload; repeat split; try assumption; symmetry; exact Hin.
  - intros (data & appAuthorization & template & client & account
            & repositoryUrl & Hvalid & Hauth & Htemplate & Hocto & Haccount
            & Hurl & ->).
    destruct (parsed_fields _ _ Hvalid) as (Hn & Hm & Ht & Ha).
    pose proof (run_call_path userId organizationSlug payload) as Hrun.
    assert (world (authorization_request data) = Some appAuthorization) as Hauth'
      by (unfold authorization_request in *; now rewrite Ha).
    assert (world (template_request data) = Some template) as Htemplate'
      by (unfold template_request in *; now rewrite Ht).
    assert (repository_request data appAuthorization account repositoryUrl
            = repository_request payload appAuthorization account repositoryUrl)
      as Hrequest
      by (unfold repository_request, repository_params; now rewrite Hn, Hm).
    destruct (world (repository_request data appAuthorization account repositoryUrl))
      as [githubRepository |] eqn:Hanswer.
    + erewrite (call_path_deterministic _ _ _ _ Hrun);
        [| eapply created; eassumption].
      cbn [fst In]. rewrite Hrequest. auto.
    + erewrite (call_path_deterministic _ _ _ _ Hrun);
        [| eapply no_repository; eassumption].
      cbn [fst In]. rewrite Hrequest. auto.
Qed.

(** What [private] is for a payload of the accepted shape. *)
Lemma private_flag (payload : JsValue) :
  has_form_shape payload = true ->
  (strict_eq_string (get payload "private") "on" = true
     <-> get payload "private" = JsString "on")
  /\ (strict_eq_string (get payload "private") "on" = false
     <-> get payload "private" = JsUndefined).
Proof.
  destruct payload as [| | b | n | s | items | props]; try discriminate.
  unfold has_form_shape, get. intros H.
  repeat (apply andb_true_iff in H as [H ?]).
  destruct (prop "private" props) as [| | b | n | marker | items | ps];
    try discriminate; cbn [strict_eq_string] in *.
  - repeat split; intros; congruence.
  - match goal with Hm : String.eqb marker "on" = true |- _ =>
      apply String.eqb_eq in Hm; subst marker end.
    rewrite String.eqb_refl. repeat split; intros; congruence.
Qed.


(** C5: the schema accepts exactly the payloads of the stated shape;
    for any other payload [call] returns at once the error whose
    message renders all the violations, and issues no request. *)
Theorem C5_schema_accepts_exactly_the_shape (payload : JsValue) :
  ((exists data, safeParse FormSchema payload = SafeParseSuccess data)
     <-> has_form_shape payload = true)
  /\ (has_form_shape payload = false ->
      violations payload <> []
      /\ forall userId organizationSlug,
          call env userId organizationSlug payload
            = Return (error (generateErrorMessage env (violations payload)))
          /\ run world (call env userId organizationSlug payload)
            = ([], Returned (error (generateErrorMessage env (violations payload))))).
Proof.
  pose proof (safeParse_FormSchema_spec payload) as Hspec.
  unfold call.
  destruct (safeParse FormSchema payload) as [data | issues].
  - destruct Hspec as (Hshape & _). split.
    + split; [intros _; exact Hshape | intros _; now exists data].
    + congruence.
  - destruct Hspec as (Hshape & Hne & ->). split.
    + split; [intros [data Hd]; discriminate | congruence].
    + intros _. split; [assumption |]. intros userId organizationSlug.
      split; reflexivity.
Qed.

(** C6: for a valid payload the checks run in the order authorization,
    template, client, account, and the first that fails gives the
    result; nothing is requested after it. *)
Theorem C6_checks_in_order
    (userId organizationSlug : string) (payload data : JsValue) :
  safeParse FormSchema payload = SafeParseSuccess data ->
  let r := run world (call env userId organizationSlug payload) in
  (world (authorization_request payload) = None ->
   r = ([authorization_request payload],
        Returned (error "App authorization not found")))
  /\ (forall appAuthorization,
      world (authorization_request payload) = Some appAuthorization ->
      world (template_request payload) = None ->
      r = ([authorization_request payload; template_request payload],
           Returned (error "Template not found")))
  /\ (forall appAuthorization template,
      world (authorization_request payload) = Some appAuthorization ->
      world (template_request payload) = Some template ->
      octokit env = None ->
      r = ([authorization_request payload; template_request payload],
           Returned (error "GitHub App not configured")))
  /\ (forall appAuthorization template client,
      world (authorization_request payload) = Some appAuthorization ->
      world (template_request payload) = Some template ->
      octokit env = Some client ->
      AccountSchema_safeParse env
        (GitHubAppAuthorization.account appAuthorization) = None ->
      r = ([authorization_request payload; template_request payload],
           Returned (error "Account not found"))).
Proof.
  intros Hvalid r. subst r.
  paths userId organizationSlug payload; try congruence;
    to_payload; repeat split; intros; congruence.
Qed.

(** C7: when the external call was issued and returned nothing, the
    result is the error "Failed to create repository" and no
    OrganizationTemplate is created. *)
Theorem C7_failed_repository
    (userId organizationSlug : string) (payload : JsValue)
    (params : CreateRepositoryParams.t) (installationId : Z) :
  let r := run world (call env userId organizationSlug payload) in
  In (createRepositoryFromTemplate params installationId) (fst r) ->
  world (createRepositoryFromTemplate params installationId) = None ->
  snd r = Returned (error "Failed to create repository")
  /\ writes (fst r) = []
  /\ forall data, ~ In (organizationTemplate_create data) (fst r).
Proof.
  intros r Hin Hanswer. subst r.
  paths userId organizationSlug payload; cbn [fst In] in Hin;
    unfold authorization_request, template_request, repository_request in *;
    repeat (destruct Hin as [Hin | Hin]; try discriminate Hin);
    try contradiction; injection Hin as <- <-; cbn [nth_error] in *.
  - repeat split. intros created Hin. cbn in Hin. intuition discriminate.
  - congruence.
Qed.

(** C8: [call] does not look at [userId]: two invocations that differ
    only in it are the same program, with the same requests and result. *)
Theorem C8_userId_unused
    (userId1 userId2 organizationSlug : string) (payload : JsValue) :
  let r1 := run world (call env userId1 organizationSlug payload) in
  let r2 := run world (call env userId2 organizationSlug payload) in
  call env userId1 organizationSlug payload
    = call env userId2 organizationSlug payload
  /\ snd r1 = snd r2
  /\ filter is_read (fst r1) = filter is_read (fst r2)
  /\ writes (fst r1) = writes (fst r2)
  /\ fst r1 = fst r2.
Proof. repeat split. Qed.

(** C9: the requests before the write, the external call among them,
    and every outcome other than success are the same for any two
    organization slugs; the slug appears only as the [organization]
    connection of the create, which comes after the external call. *)
Theorem C9_slug_used_only_in_create
    (userId slug1 slug2 : string) (payload : JsValue) :
  let r1 := run world (call env userId slug1 payload) in
  let r2 := run world (call env userId slug2 payload) in
  before_write (fst r1) = before_write (fst r2)
  /\ ((forall template, snd r1 <> Returned (success template)) -> r1 = r2)
  /\ (forall data,
      In (organizationTemplate_create data) (fst r1) ->
      OrganizationTemplateCreateInput.organization data = connect_slug slug1
      /\ fst r1 = before_write (fst r2) ++ [organizationTemplate_create data]
      /\ existsb is_external_call (before_write (fst r2)) = true).
Proof.
  intros r1 r2. subst r1 r2.
  pose proof (run_call_path userId slug2 payload) as Hother.
  paths userId slug1 payload;
    (erewrite (call_path_deterministic _ _ _ _ Hother);
     [| first [ eapply invalid_payload; eassumption
              | eapply no_authorization; eassumption
              | eapply no_template; eassumption
              | eapply not_configured; eassumption
              | eapply no_account; eassumption
              | eapply invalid_url; eassumption
              | eapply no_repository; eassumption
              | eapply created; eassumption ]]);
    unfold authorization_request, template_request, repository_request;
    cbn [fst snd before_write filter is_write negb In app existsb
         is_external_call orb];
    (split; [reflexivity |]); split;
    try (intros _; reflexivity);
    try (intros Hno; exfalso; eapply Hno; reflexivity);
    intros written Hin;
    repeat (destruct Hin as [Hin | Hin]; try discriminate Hin);
    try contradiction.
  injection Hin as <-. repeat split.
Qed.

(** C4 (amended): the owner and the repository passed to the external
    call are the first and second segments of the template's URL when
    its path is a list of segments; for
    "https://github.com/acme/base-starter" they are "acme" and
    "base-starter". *)
Theorem C4_owner_and_repo_are_first_segments
    (userId organizationSlug : string) (payload : JsValue)
    (params : CreateRepositoryParams.t) (installationId : Z)
    (template : Template.t) :
  In (createRepositoryFromTemplate params installationId)
     (fst (run world (call env userId organizationSlug payload))) ->
  world (template_request payload) = Some template ->
  exists repositoryUrl,
    new_URL env (Template.repositoryUrl template) = Some repositoryUrl
    /\ (forall segments,
        URL.path repositoryUrl = URL.Segments segments ->
        CreateRepositoryParams.template_owner params = nth_error segments 0
        /\ CreateRepositoryParams.template_repo params = nth_error segments 1)
    /\ (Template.repositoryUrl template = "https://github.com/acme/base-starter" ->
        CreateRepositoryParams.template_owner params = Some "acme"
        /\ CreateRepositoryParams.template_repo params = Some "base-starter").
Proof.
  intros Hin Htemplate.
  assert (forall data account u,
    new_URL env (Template.repositoryUrl template) = Some u ->
    params = repository_params data account
               (nth_error (slice1 (split "/" (URL.pathname u))) 0)
               (nth_error (slice1 (split "/" (URL.pathname u))) 1) ->
    exists repositoryUrl,
      new_URL env (Template.repositoryUrl template) = Some repositoryUrl
      /\ (forall segments,
          URL.path repositoryUrl = URL.Segments segments ->
          CreateRepositoryParams.template_owner params = nth_error segments 0
          /\ CreateRepositoryParams.template_repo params = nth_error segments 1)
      /\ (Template.repositoryUrl template = "https://github.com/acme/base-starter" ->
          CreateRepositoryParams.template_owner params = Some "acme"
          /\ CreateRepositoryParams.template_repo params = Some "base-starter"))
    as Hsegments.
  { intros data account u Hurl ->. exists u. split; [assumption |].
    unfold new_URL in Hurl. split.
    - intros segments Hpath. cbn [repository_params
        CreateRepositoryParams.template_owner CreateRepositoryParams.template_repo].
      now rewrite (serialized_path_segments _ _ _ _ Hurl Hpath).
    - intros Href. rewrite Href in Hurl.
      remember (host_parser env) as parser eqn:Hparser. clear Hparser.
      vm_compute in Hurl. destruct (parser _ _); [| discriminate].
      injection Hurl as <-. split; reflexivity. }
  paths userId organizationSlug payload; cbn [fst In] in Hin;
    repeat (destruct Hin as [Hin | Hin]; try discriminate Hin);
    try contradiction;
    unfold repository_request in Hin; injection Hin as Hparams Hinstallation;
    to_payload;
    (assert (template0 = template) as -> by congruence);
    (apply (Hsegments payload account repositoryUrl);
     [assumption | symmetry; exact Hparams]).
Qed.

Lemma split_no_slash (s : string) :
  no_slash s = true -> split "/" s = [s].
Proof.
  intros Hs. rewrite <- (append_empty_r s) at 1.
  rewrite (split_app_no_slash s "" Hs). cbn. now rewrite append_empty_r.
Qed.

(** C10 (amended): whatever well-formed URL the template has, [call]
    does not stop at the parsing step: its third request is the
    external call.  For a path that is a list of segments the owner
    and the repository are its first and second segment, undefined
    where the path has none, empty where the segment is empty; for an
    opaque path they are the second and third piece between its "/". *)
Theorem C10_parsing_step_reaches_external_call
    (userId organizationSlug : string) (payload data : JsValue)
    (appAuthorization : GitHubAppAuthorization.t) (template : Template.t)
    (client : Octokit) (account : Account.t) (repositoryUrl : URL.url) :
  safeParse FormSchema payload = SafeParseSuccess data ->
  world (authorization_request payload) = Some appAuthorization ->
  world (template_request payload) = Some template ->
  octokit env = Some client ->
  AccountSchema_safeParse env (GitHubAppAuthorization.account appAuthorization)
    = Some account ->
  new_URL env (Template.repositoryUrl template) = Some repositoryUrl ->
  exists params,
    firstn 3 (fst (run world (call env userId organizationSlug payload)))
      = [authorization_request payload; template_request payload;
         createRepositoryFromTemplate params
           (GitHubAppAuthorization.installationId appAuthorization)]
    /\ (forall segments,
        URL.path repositoryUrl = URL.Segments segments ->
        CreateRepositoryParams.template_owner params = nth_error segments 0
        /\ CreateRepositoryParams.template_repo params = nth_error segments 1
        /\ (length segments < 2 ->
            CreateRepositoryParams.template_repo params = None))
    /\ (forall segment,
        URL.path repositoryUrl = URL.Opaque segment ->
        CreateRepositoryParams.template_owner params
          = nth_error (slice1 (split "/" segment)) 0
        /\ CreateRepositoryParams.template_repo params
          = nth_error (slice1 (split "/" segment)) 1
        /\ (no_slash segment = true ->
            CreateRepositoryParams.template_owner params = None
            /\ CreateRepositoryParams.template_repo params = None))
    /\ (Template.repositoryUrl template = "https://github.com/" ->
        CreateRepositoryParams.template_owner params = Some ""
        /\ CreateRepositoryParams.template_repo params = None)
    /\ (Template.repositoryUrl template = "https://github.com/acme/" ->
        CreateRepositoryParams.template_owner params = Some "acme"
        /\ CreateRepositoryParams.template_repo params = Some "").
Proof.
  intros Hvalid Hauth Htemplate Hocto Haccount Hurl.
  assert (Template.repositoryUrl template = "https://github.com/" ->
          URL.path repositoryUrl = URL.Segments [""]) as Hroot.
  { intros Href. unfold new_URL in Hurl. rewrite Href in Hurl.
    remember (host_parser env) as parser eqn:Hparser. clear Hparser.
    vm_compute in Hurl. destruct (parser _ _); [| discriminate].
    now injection Hurl as <-. }
  assert (Template.repositoryUrl template = "https://github.com/acme/" ->
          URL.path repositoryUrl = URL.Segments ["acme"; ""]) as Hslash.
  { intros Href. unfold new_URL in Hurl. rewrite Href in Hurl.
    remember (host_parser env) as parser eqn:Hparser. clear Hparser.
    vm_compute in Hurl. destruct (parser _ _); [| discriminate].
    now injection Hurl as <-. }
  assert (forall segments,
    URL.path repositoryUrl = URL.Segments segments ->
    slice1 (split "/" (URL.pathname repositoryUrl)) = segments) as Hlist
    by (intros segments Hpath;
        exact (serialized_path_segments _ _ _ _ Hurl Hpath)).
  paths userId organizationSlug payload; try congruence; to_payload;
    try congruence.
  all: assert (appAuthorization0 = appAuthorization) as -> by congruence.
  all: assert (template0 = template) as -> by congruence.
  all: try congruence.
  all: assert (account0 = account) as -> by congruence.
  all: assert (repositoryUrl0 = repositoryUrl) as -> by congruence.
  all: eexists; cbn [fst firstn]; split; [reflexivity |];
    cbn [CreateRepositoryParams.template_owner
         CreateRepositoryParams.template_repo].
  all: (split; [| split; [| split]]);
    [ intros segments Hpath; rewrite (Hlist _ Hpath);
      split; [reflexivity | split; [reflexivity |]];
      intros Hshort; apply nth_error_None; lia
    | intros segment Hpath; unfold URL.pathname; rewrite Hpath;
      split; [reflexivity | split; [reflexivity |]];
      intros Hnone; rewrite (split_no_slash _ Hnone); split; reflexivity
    | intros Href; rewrite (Hlist _ (Hroot Href)); split; reflexivity
    | intros Href; rewrite (Hlist _ (Hslash Href)); split; reflexivity ].
Qed.

(** ** Further properties of [call] *)

Ltac split_all :=
  repeat match goal with
         | H : exists _, _ |- _ => destruct H
         | H : _ /\ _ |- _ => destruct H
         end.

Lemma valid_payload_parses (payload : JsValue) :
  has_form_shape payload = true ->
  exists data, safeParse FormSchema payload = SafeParseSuccess data.
Proof.
  intros Hshape. pose proof (safeParse_FormSchema_spec payload) as Hspec.
  destruct (safeParse FormSchema payload) as [data | issues].
  - now exists data.
  - destruct Hspec as (Hno & _). congruence.
Qed.

Lemma valid_name_length (payload : JsValue) :
  has_form_shape payload = true ->
  3 <= String.length (string_of (get payload "name")) <= 100.
Proof.
  destruct payload as [| | b | n | s | items | props]; try discriminate.
  unfold has_form_shape, get. intros H.
  repeat (apply andb_true_iff in H as [H ?]).
  destruct (prop "name" props) as [| | b | n | name | items | ps];
    try discriminate.
  apply andb_true_iff in H as [Hmin Hmax].
  apply Nat.leb_le in Hmin, Hmax. cbn [string_of]. lia.
Qed.

(** The requests of a run are a prefix of the pipeline: the
    authorization lookup, the template lookup, one external call, one
    create. *)
Theorem requests_are_a_prefix_of_the_pipeline
    (userId organizationSlug : string) (payload : JsValue) :
  exists n external write,
    is_external_call external = true
    /\ is_write write = true
    /\ fst (run world (call env userId organizationSlug payload))
       = firstn n [authorization_request payload; template_request payload;
                   external; write].
Proof.
  pose (external := createRepositoryFromTemplate
                      (repository_params payload (Account.make "") None None) 0%Z).
  pose (write := organizationTemplate_create
                   (create_input organizationSlug payload
                      (GithubRepository.make "" []))).
  paths userId organizationSlug payload; try to_payload.
  - exists 0, external, write. repeat split.
  - exists 1, external, write. repeat split.
  - exists 2, external, write. repeat split.
  - exists 2, external, write. repeat split.
  - exists 2, external, write. repeat split.
  - exists 2, external, write. repeat split.
  - eexists 3, (createRepositoryFromTemplate _ _), write. repeat split.
  - eexists 4, (createRepositoryFromTemplate _ _),
      (organizationTemplate_create _). repeat split.
Qed.

(** The external call gets the login of the authorization's account as
    owner, the payload's name as name, the privacy flag, and the
    installation id of the authorization that was found. *)
Theorem external_call_arguments
    (userId organizationSlug : string) (payload : JsValue)
    (params : CreateRepositoryParams.t) (installationId : Z) :
  In (createRepositoryFromTemplate params installationId)
     (fst (run world (call env userId organizationSlug payload))) ->
  exists appAuthorization account,
    world (authorization_request payload) = Some appAuthorization
    /\ AccountSchema_safeParse env
         (GitHubAppAuthorization.account appAuthorization) = Some account
    /\ installationId = GitHubAppAuthorization.installationId appAuthorization
    /\ CreateRepositoryParams.owner params = Account.login account
    /\ CreateRepositoryParams.name params = string_of (get payload "name")
    /\ 3 <= String.length (CreateRepositoryParams.name params) <= 100
    /\ (CreateRepositoryParams.private params = true
        <-> get payload "private" = JsString "on")
    /\ (CreateRepositoryParams.private params = false
        <-> get payload "private" = JsUndefined).
Proof.
  intros Hin. apply external_call_issued in Hin.
  destruct Hin as (data & appAuthorization & template & client & account
                   & repositoryUrl & Hvalid & Hauth & Htemplate & Hocto
                   & Haccount & Hurl & Hrequest).
  pose proof (safeParse_FormSchema_spec payload) as Hshape.
  rewrite Hvalid in Hshape. destruct Hshape as (Hshape & _).
  unfold repository_request in Hrequest. injection Hrequest as -> ->.
  exists appAuthorization, account.
  cbn [repository_params CreateRepositoryParams.owner
       CreateRepositoryParams.name CreateRepositoryParams.private].
  repeat split; try assumption; try reflexivity;
    try apply (valid_name_length _ Hshape); try apply (private_flag _ Hshape).
Qed.

(** For a payload the schema accepts, each of the five fixed messages
    names its cause. *)
Theorem error_message_names_the_cause
    (userId organizationSlug : string) (payload : JsValue) :
  has_form_shape payload = true ->
  let r := run world (call env userId organizationSlug payload) in
  (snd r = Returned (error "App authorization not found")
     <-> world (authorization_request payload) = None)
  /\ (snd r = Returned (error "Template not found")
     <-> (exists appAuthorization,
            world (authorization_request payload) = Some appAuthorization)
         /\ world (template_request payload) = None)
  /\ (snd r = Returned (error "GitHub App not configured")
     <-> (exists appAuthorization template,
            world (authorization_request payload) = Some appAuthorization
            /\ world (template_request payload) = Some template)
         /\ octokit env = None)
  /\ (snd r = Returned (error "Account not found")
     <-> exists appAuthorization template client,
            world (authorization_request payload) = Some appAuthorization
            /\ world (template_request payload) = Some template
            /\ octokit env = Some client
            /\ AccountSchema_safeParse env
                 (GitHubAppAuthorization.account appAuthorization) = None)
  /\ (snd r = Returned (error "Failed to create repository")
     <-> external_call_failed world (fst r) = true).
Proof.
  intros Hshape r. subst r.
  destruct (valid_payload_parses _ Hshape) as [parsed Hparsed].
  paths userId organizationSlug payload; try congruence; to_payload;
    unfold external_call_failed; cbn [fst snd existsb orb]; answered;
    repeat split; intros; split_all;
    try discriminate; try congruence; eauto 10.
Qed.

(** *** The schema, key by key *)

Lemma form_shape_by_key (props : list (string * JsValue)) :
  has_form_shape (JsObject props) = true
  <-> valid_name (prop "name" props) = true
      /\ is_string (prop "templateId" props) = true
      /\ valid_private (prop "private" props) = true
      /\ is_string (prop "appAuthorizationId" props) = true.
Proof.
  unfold has_form_shape, valid_name, valid_private.
  rewrite !andb_true_iff.
  destruct (prop "private" props); tauto.
Qed.

Lemma name_issues (props : list (string * JsValue)) :
  none_or_one_issue (valid_name (prop "name" props)) "name"
    (field_issues props ("name", ZodString [min 3; max 100])).
Proof.
  unfold none_or_one_issue, field_issues, valid_name. cbn [fst snd _parse].
  destruct (prop "name" props) as [| | b | n | name | items | ps];
    try (right; split; [reflexivity | eexists; reflexivity]).
  cbn [flat_map check_string].
  destruct (Nat.ltb_spec (String.length name) 3) as [Hmin | Hmin];
    destruct (Nat.ltb_spec 100 (String.length name)) as [Hmax | Hmax];
    try lia; cbn [app].
  - right. split; [| eexists; reflexivity].
    apply andb_false_iff. left. apply Nat.leb_gt. lia.
  - right. split; [| eexists; reflexivity].
    apply andb_false_iff. right. apply Nat.leb_gt. lia.
  - left. split; [| reflexivity].
    apply andb_true_iff. split; apply Nat.leb_le; lia.
Qed.

Lemma string_issues (props : list (string * JsValue)) (key : string) :
  none_or_one_issue (is_string (prop key props)) key
    (field_issues props (key, ZodString [])).
Proof.
  unfold none_or_one_issue, field_issues, is_string. cbn [fst snd _parse].
  destruct (prop key props);
    try (right; split; [reflexivity | eexists; reflexivity]).
  left. split; reflexivity.
Qed.

Lemma private_issues (props : list (string * JsValue)) :
  none_or_one_issue (valid_private (prop "private" props)) "private"
    (field_issues props ("private", ZodOptional (ZodLiteral "on"))).
Proof.
  unfold none_or_one_issue, field_issues, valid_private.
  cbn [fst snd _parse].
  destruct (prop "private" props) as [| | b | n | marker | items | ps];
    try (right; split; [reflexivity | eexists; reflexivity]).
  - left. split; reflexivity.
  - cbn [strict_eq_string]. destruct (String.eqb marker "on").
    + left. split; reflexivity.
    + right. split; [reflexivity | eexists; reflexivity].
Qed.

Lemma violations_by_key (props : list (string * JsValue)) :
  violations (JsObject props)
  = field_issues props ("name", ZodString [min 3; max 100])
    ++ field_issues props ("templateId", ZodString [])
    ++ field_issues props ("private", ZodOptional (ZodLiteral "on"))
    ++ field_issues props ("appAuthorizationId", ZodString []).
Proof. unfold violations, FormSchema. cbn [flat_map]. now rewrite app_nil_r. Qed.

(** When the schema rejects an object, each key with an invalid value
    has an issue, the keys with a valid value have none, and every
    issue is at one of the four keys. *)
Theorem invalid_fields_are_reported
    (props : list (string * JsValue)) (issues : list ZodIssue) :
  safeParse FormSchema (JsObject props) = SafeParseError issues ->
  reported "name" issues = negb (valid_name (prop "name" props))
  /\ reported "templateId" issues = negb (is_string (prop "templateId" props))
  /\ reported "private" issues = negb (valid_private (prop "private" props))
  /\ reported "appAuthorizationId" issues
     = negb (is_string (prop "appAuthorizationId" props))
  /\ 1 <= length issues <= 4
  /\ forall i, In i issues -> exists key, In key form_keys /\ path i = [key].
Proof.
  intros Hrejected.
  pose proof (safeParse_FormSchema_spec (JsObject props)) as Hspec.
  rewrite Hrejected in Hspec. destruct Hspec as (_ & Hne & ->).
  rewrite violations_by_key in *. clear Hrejected. revert Hne.
  destruct (name_issues props) as [[-> ->] | [-> [c1 ->]]];
    destruct (string_issues props "templateId") as [[-> ->] | [-> [c2 ->]]];
    destruct (private_issues props) as [[-> ->] | [-> [c3 ->]]];
    destruct (string_issues props "appAuthorizationId")
      as [[-> ->] | [-> [c4 ->]]];
    cbn [app]; intros Hne; try congruence;
    (repeat split; [cbn; lia | cbn; lia |]);
    intros i Hin; cbn [In] in Hin;
    repeat (destruct Hin as [<- | Hin]; [eexists; split; [| reflexivity];
                                         cbn; tauto |]);
    contradiction.
Qed.

(** A [private] that is present and is not "on" is rejected with an
    invalid_literal issue: [call] returns the error and issues no
    request. *)
Theorem other_private_marker_is_rejected
    (userId organizationSlug : string) (props : list (string * JsValue)) :
  prop "private" props <> JsUndefined ->
  prop "private" props <> JsString "on" ->
  exists issues,
    safeParse FormSchema (JsObject props) = SafeParseError issues
    /\ In (mkIssue (invalid_literal "on" (prop "private" props)) ["private"])
          issues
    /\ run world (call env userId organizationSlug (JsObject props))
       = ([], Returned (error (generateErrorMessage env issues))).
Proof.
  intros Hpresent Hother.
  assert (field_issues props ("private", ZodOptional (ZodLiteral "on"))
          = [mkIssue (invalid_literal "on" (prop "private" props)) ["private"]])
    as Hissue.
  { unfold field_issues. cbn [fst snd _parse].
    destruct (prop "private" props) as [| | b | n | marker | items | ps];
      try reflexivity; try congruence.
    cbn [strict_eq_string].
    destruct (String.eqb_spec marker "on"); [congruence | reflexivity]. }
  pose proof (safeParse_FormSchema_spec (JsObject props)) as Hspec.
  unfold call.
  destruct (safeParse FormSchema (JsObject props)) as [data | issues].
  - destruct Hspec as (Hshape & _). exfalso.
    pose proof (private_issues props) as [[_ Hnone] | [Hinvalid _]].
    + rewrite Hissue in Hnone. discriminate.
    + apply form_shape_by_key in Hshape. destruct Hshape as (_ & _ & ? & _).
      congruence.
  - destruct Hspec as (_ & _ & ->). eexists. split; [reflexivity |].
    split; [| reflexivity].
    rewrite violations_by_key, Hissue.
    apply in_or_app. right. apply in_or_app. right. now left.
Qed.




(** Only the four keys of the schema matter: two objects that agree on
    them give the same run. *)
Theorem other_keys_are_ignored
    (userId organizationSlug : string) (props1 props2 : list (string * JsValue)) :
  (forall key, In key form_keys -> prop key props1 = prop key props2) ->
  run world (call env userId organizationSlug (JsObject props1))
  = run world (call env userId organizationSlug (JsObject props2)).
Proof.
  intros Hsame.
  assert (prop "name" props1 = prop "name" props2) as Hn
    by (apply Hsame; cbn; tauto).
  assert (prop "templateId" props1 = prop "templateId" props2) as Ht
    by (apply Hsame; cbn; tauto).
  assert (prop "private" props1 = prop "private" props2) as Hp
    by (apply Hsame; cbn; tauto).
  assert (prop "appAuthorizationId" props1 = prop "appAuthorizationId" props2)
    as Ha by (apply Hsame; cbn; tauto).
  assert (has_form_shape (JsObject props1) = has_form_shape (JsObject props2))
    as Hshape by (unfold has_form_shape; now rewrite Hn, Ht, Hp, Ha).
  assert (violations (JsObject props1) = violations (JsObject props2))
    as Hviolations
    by (rewrite !violations_by_key; unfold field_issues; cbn [fst snd];
        now rewrite Hn, Ht, Hp, Ha).
  pose proof (safeParse_FormSchema_spec (JsObject props1)) as H1.
  pose proof (safeParse_FormSchema_spec (JsObject props2)) as H2.
  unfold call.
  destruct (safeParse FormSchema (JsObject props1)) as [data1 | issues1];
    destruct (safeParse FormSchema (JsObject props2)) as [data2 | issues2].
  - destruct H1 as (_ & Hn1 & Ht1 & Hp1 & Ha1).
    destruct H2 as (_ & Hn2 & Ht2 & Hp2 & Ha2).
    rewrite Hn1, Ht1, Hp1, Ha1, Hn2, Ht2, Hp2, Ha2. cbn [get].
    now rewrite Hn, Ht, Hp, Ha.
  - destruct H1 as (? & _). destruct H2 as (? & _). congruence.
  - destruct H1 as (? & _). destruct H2 as (? & _). congruence.
  - destruct H1 as (_ & _ & ->). destruct H2 as (_ & _ & ->).
    now rewrite Hviolations.
Qed.

(** *** The record and the repository *)

(** A create is only issued after GitHub returned a repository, and
    its data agree with that call: the same name and privacy flag as
    GitHub was asked for, the URL and the data that GitHub returned,
    and the ids that were looked up. *)
Theorem record_matches_the_repository
    (userId organizationSlug : string) (payload : JsValue)
    (input : OrganizationTemplateCreateInput.t) :
  In (organizationTemplate_create input)
     (fst (run world (call env userId organizationSlug payload))) ->
  exists params installationId githubRepository,
    fst (run world (call env userId organizationSlug payload))
    = [authorization_request payload; template_request payload;
       createRepositoryFromTemplate params installationId;
       organizationTemplate_create input]
    /\ world (createRepositoryFromTemplate params installationId)
       = Some githubRepository
    /\ OrganizationTemplateCreateInput.name input
       = CreateRepositoryParams.name params
    /\ OrganizationTemplateCreateInput.private input
       = CreateRepositoryParams.private params
    /\ OrganizationTemplateCreateInput.repositoryUrl input
       = GithubRepository.html_url githubRepository
    /\ OrganizationTemplateCreateInput.repositoryData input = githubRepository
    /\ OrganizationTemplateCreateInput.template input
       = connect_id (string_of (get payload "templateId"))
    /\ OrganizationTemplateCreateInput.authorization input
       = connect_id (string_of (get payload "appAuthorizationId"))
    /\ OrganizationTemplateCreateInput.organization input
       = connect_slug organizationSlug.
Proof.
  intros Hin.
  paths userId organizationSlug payload; cbn [fst In] in Hin;
    repeat (destruct Hin as [Hin | Hin]; try discriminate Hin);
    try contradiction.
  injection Hin as <-. to_payload.
  eexists _, _, githubRepository. repeat split. assumption.
Qed.

Lemma split_pieces_no_slash (s : string) :
  forallb no_slash (split "/" s) = true.
Proof.
  induction s as [| c s IH]; [reflexivity |]. cbn [split].
  destruct (Ascii.eqb c "/") eqn:Hc; [exact IH |].
  destruct (split "/" s) as [| piece pieces]; cbn in *.
  - now rewrite Hc.
  - now rewrite Hc.
Qed.

(** The owner and the repository passed to the external call hold no
    "/", whatever the URL is, and a repository is only passed together
    with an owner. *)
Theorem owner_and_repo_are_single_components
    (userId organizationSlug : string) (payload : JsValue)
    (params : CreateRepositoryParams.t) (installationId : Z) :
  In (createRepositoryFromTemplate params installationId)
     (fst (run world (call env userId organizationSlug payload))) ->
  (forall owner, CreateRepositoryParams.template_owner params = Some owner ->
                 no_slash owner = true)
  /\ (forall repo, CreateRepositoryParams.template_repo params = Some repo ->
                   no_slash repo = true)
  /\ (CreateRepositoryParams.template_owner params = None ->
      CreateRepositoryParams.template_repo params = None).
Proof.
  intros Hin. apply external_call_issued in Hin.
  destruct Hin as (data & appAuthorization & template & client & account
                   & repositoryUrl & _ & _ & _ & _ & _ & _ & Hrequest).
  unfold repository_request in Hrequest. injection Hrequest as -> _.
  cbn [repository_params CreateRepositoryParams.template_owner
       CreateRepositoryParams.template_repo].
  pose proof (split_pieces_no_slash (URL.pathname repositoryUrl)) as Hpieces.
  assert (forall i x,
    nth_error (slice1 (split "/" (URL.pathname repositoryUrl))) i = Some x ->
    no_slash x = true) as Hpiece.
  { intros i x Hx. apply nth_error_In in Hx.
    assert (In x (split "/" (URL.pathname repositoryUrl))) as Hin
      by (unfold slice1 in Hx; destruct (split "/" (URL.pathname repositoryUrl));
          [contradiction | now right]).
    exact (proj1 (forallb_forall _ _) Hpieces x Hin). }
  split; [intros owner Howner; exact (Hpiece 0 _ Howner) |].
  split; [intros repo Hrepo; exact (Hpiece 1 _ Hrepo) |].
  intros Hnone.
  change (nth_error (slice1 (split "/" (URL.pathname repositoryUrl))) 0 = None)
    in Hnone.
  change (nth_error (slice1 (split "/" (URL.pathname repositoryUrl))) 1 = None).
  apply nth_error_None in Hnone. apply nth_error_None. lia.
Qed.

End Properties.

(** ** When a promise may reject *)

(** A run in which every promise fulfils is a run of [run]. *)
Lemma run_settled_fulfilling {A : Type} (world : Collaborators) (p : Prog A) :
  run_settled (fulfilling world) p = run world p.
Proof.
  induction p as [a | e | r k IH]; try reflexivity.
  cbn [run_settled run]. unfold fulfilling at 1. now rewrite IH.
Qed.

Section Rejections.

Variable env : Imports.
Variable world : Promises.

(** The run of [call] follows one of the twelve paths. *)
Lemma run_settled_path (userId organizationSlug : string) (payload : JsValue) :
  settled_path env world organizationSlug payload
    (run_settled world (call env userId organizationSlug payload)).
Proof.
  unfold call.
  destruct (safeParse FormSchema payload) as [data | issues] eqn:Hparse.
  2: { now apply settled_invalid_payload. }
  cbn [run_settled].
  destruct (world (gitHubAppAuthorization_findUnique _))
    as [[auth |] | reason] eqn:Hauth.
  2: { now apply settled_no_authorization. }
  2: { now apply authorization_rejects. }
  cbn [run_settled fst snd].
  destruct (world (template_findUnique _)) as [[tpl |] | reason] eqn:Htpl.
  2: { now eapply settled_no_template; eauto. }
  2: { now eapply template_rejects; eauto. }
  destruct (octokit env) as [client |] eqn:Hocto.
  2: { now eapply settled_not_configured; eauto. }
  destruct (AccountSchema_safeParse env _) as [acct |] eqn:Hacct.
  2: { now eapply settled_no_account; eauto. }
  destruct (new_URL env _) as [u |] eqn:Hurl.
  2: { now eapply settled_invalid_url; eauto. }
  cbn [run_settled fst snd destructure2].
  destruct (world (createRepositoryFromTemplate _ _))
    as [[repo |] | reason] eqn:Hrepo.
  2: { now eapply settled_no_repository; eauto. }
  2: { now eapply repository_rejects; eauto. }
  cbn [run_settled fst snd].
  destruct (world (organizationTemplate_create _)) as [record | reason]
    eqn:Hcreate.
  - eapply settled_created; eauto.
  - eapply create_rejects; eauto.
Qed.

Ltac settled_paths userId organizationSlug payload :=
  let H := fresh "Hpath" in
  pose proof (run_settled_path userId organizationSlug payload) as H;
  destruct H.

Ltac in_payload :=
  match goal with
  | Hp : safeParse _ _ = SafeParseSuccess _ |- _ =>
      let Hn := fresh "Hn" in
      let Hm := fresh "Hm" in
      let Ht := fresh "Ht" in
      let Ha := fresh "Ha" in
      destruct (parsed_fields _ _ Hp) as (Hn & Hm & Ht & Ha);
      unfold authorization_request, template_request, repository_request,
        repository_params, create_input in *;
      rewrite ?Hn, ?Hm, ?Ht, ?Ha in *
  end.

Ltac settle :=
  unfold repository_returned, persisted, fulfilled, new_URL_throws,
    authorization_request, template_request, repository_request in *;
  cbn [fst snd existsb forallb orb andb is_write writes filter In app];
  repeat match goal with
         | H : world ?r = _ |- context [world ?r] => rewrite H
         end;
  cbn [fst snd existsb forallb orb andb is_write writes filter In app].

Ltac open_all :=
  repeat match goal with
         | H : exists _, _ |- _ => destruct H
         | H : _ /\ _ |- _ => destruct H
         end.

(** C1 (amended): a create is issued exactly when the external call
    returned a repository, it is the only write and the last request;
    a record is persisted exactly when [call] returns success, which
    takes the create to fulfil. *)
Theorem C1_create_issued_iff_repository_returned
    (userId organizationSlug : string) (payload : JsValue) :
  let r := run_settled world (call env userId organizationSlug payload) in
  ((exists input, In (organizationTemplate_create input) (fst r))
     <-> repository_returned world (fst r) = true)
  /\ (persisted world (fst r) = true
      <-> exists template, snd r = Returned (success template))
  /\ (persisted world (fst r) = true -> repository_returned world (fst r) = true)
  /\ (repository_returned world (fst r) = false -> writes (fst r) = [])
  /\ (forall input,
      In (organizationTemplate_create input) (fst r) ->
      exists before,
        fst r = before ++ [organizationTemplate_create input]
        /\ writes before = []
        /\ length (writes (fst r)) = 1).
Proof.
  settled_paths userId organizationSlug payload; settle.
  all: repeat split; intros; open_all; try discriminate; try reflexivity;
    try contradiction.
  all: try match goal with
           | H : _ \/ _ |- _ => cbn in H; solve [intuition discriminate]
           end.
  all: try (eexists; right; right; right; left; reflexivity).
  all: try (eexists; reflexivity).
  all: match goal with
       | H : _ \/ _ |- _ =>
           repeat (destruct H as [H | H]; try discriminate H);
           try contradiction; injection H as <-
       end;
    eexists (_ :: _ :: _ :: []); repeat split.
Qed.

(** C3 (amended): [call] returns a value of the result shape exactly
    when every promise it awaits fulfils and [new URL] does not throw
    at line 91. *)
Theorem C3_returns_unless_rejected_or_url_invalid
    (userId organizationSlug : string) (payload : JsValue) :
  let r := run_settled world (call env userId organizationSlug payload) in
  (exists result, snd r = Returned result)
  <-> forallb (fulfilled world) (fst r) = true
      /\ ~ new_URL_throws env world payload.
Proof.
  settled_paths userId organizationSlug payload; try in_payload; settle.
  all: split;
    [ intros [result Hresult] | intros [Hfulfilled Hno] ];
    try discriminate; try (eexists; reflexivity).
  all: try (split; [reflexivity |]; intros Hthrows; open_all; congruence).
  exfalso. apply Hno.
  exists data, appAuthorization, template, client, account.
  repeat split; assumption.
Qed.

(** [call] throws exactly when [new URL] throws at line 91, with its
    TypeError after the two lookups, or when an awaited promise
    rejects, with the reason of that promise, which is then its last
    request. *)
Theorem throws_exactly_on_rejection_or_invalid_url
    (userId organizationSlug : string) (payload : JsValue) (e : Exception) :
  let r := run_settled world (call env userId organizationSlug payload) in
  (snd r = Thrown e
   <-> (e = TypeError "Invalid URL" /\ new_URL_throws env world payload)
       \/ exists request reason,
            In request (fst r)
            /\ world request = Rejected reason
            /\ e = Rejection reason)
  /\ (snd r = Thrown (TypeError "Invalid URL") ->
      fst r = [authorization_request payload; template_request payload])
  /\ (forall reason,
      snd r = Thrown (Rejection reason) ->
      exists before request,
        fst r = before ++ [request]
        /\ world request = Rejected reason
        /\ forallb (fulfilled world) before = true).
Proof.
  settled_paths userId organizationSlug payload; try in_payload;
    cbn [fst snd].
  all: split; [split | split].
  all: try (intros Hthrown; discriminate Hthrown).
  all: try (intros reason' Hthrown; discriminate Hthrown).
  all: try (intros _; reflexivity).
  all: try (intros [[-> Hthrows] | (request & reason' & Hin & Hrejected & ->)];
            [ unfold new_URL_throws, authorization_request, template_request
                in Hthrows;
              open_all; congruence
            | cbn [In] in Hin;
              repeat (destruct Hin as [<- | Hin]; try congruence);
              contradiction ]).
  all: try (intros [= <-]; left; split; [reflexivity |];
            unfold new_URL_throws, authorization_request, template_request;
            eexists _, _, _, _, _; repeat split; eassumption).
  all: try (intros [= <-]; right; eexists _, _;
            (split; [| split; [eassumption | reflexivity]]);
            cbn [In]; auto 10).
  all: intros reason' [= <-];
    first [ exists (@nil Request); eexists; split; [reflexivity |]
          | eexists (_ :: nil), _; split; [reflexivity |]
          | eexists (_ :: _ :: nil), _; split; [reflexivity |]
          | eexists (_ :: _ :: _ :: nil), _; split; [reflexivity |] ];
    (split; [eassumption |]); unfold fulfilled; cbn [forallb];
    repeat match goal with
           | H : world ?r = _ |- context [world ?r] => rewrite H
           end;
    reflexivity.
Qed.

End Rejections.

(** ** The examples *)

Example new_URL_repository :
  new_URL env_configured "https://github.com/acme/base-starter"
  = Some (URL.mkUrl "https" (URL.Segments ["acme"; "base-starter"])).
Proof. reflexivity. Qed.

Example pathname_normalized :
  option_map URL.pathname
    (new_URL env_configured "https://user@github.com:443/a/../b/./c d?tab=1#top")
  = Some "/b/c%20d".
Proof. reflexivity. Qed.

Example pathname_root :
  option_map URL.pathname (new_URL env_configured "https://github.com")
  = Some "/".
Proof. reflexivity. Qed.

Example new_URL_without_scheme :
  new_URL env_configured "github.com/acme/base-starter" = None.
Proof. reflexivity. Qed.

Example rejected_payload :
  safeParse FormSchema example_invalid_payload
  = SafeParseError
      [ mkIssue (too_small 3) ["name"];
        mkIssue (invalid_type zpt_string zpt_undefined) ["templateId"] ]
  /\ run world_created
        (call env_configured "user_1" "acme-org" example_invalid_payload)
    = ([], Returned (error "name; templateId")).
Proof. split; reflexivity. Qed.

Example public_repository :
  exists created,
    snd (run world_created
             (call env_configured "user_1" "acme-org" example_payload_public))
    = Returned (success created)
    /\ OrganizationTemplate.private created = false
    /\ OrganizationTemplate.repositoryUrl created
       = "https://github.com/acme/new-repo".
Proof. eexists. repeat split. Qed.

(** ** The theorems at the examples *)


(** C3, as stated, fails: a template whose repositoryUrl has no scheme
    makes [new URL] throw, and the TypeError leaves [call]; and a
    lookup whose promise rejects leaves [call] with its reason. *)
Lemma C3_counterexample :
  snd (run (world_template_at "github.com/acme/base-starter")
           (call env_configured "user_1" "acme-org" example_payload))
  = Thrown (TypeError "Invalid URL")
  /\ ~ (exists result,
        snd (run (world_template_at "github.com/acme/base-starter")
                 (call env_configured "user_1" "acme-org" example_payload))
        = Returned result)
  /\ snd (run_settled world_unreachable
            (call env_configured "user_1" "acme-org" example_payload))
     = Thrown (Rejection "Can't reach database server").
Proof.
  split; [reflexivity |]. split; [| reflexivity].
  intros [result H]. vm_compute in H. discriminate.
Qed.

Lemma C4_owner_and_repo_are_first_segments_witness :
  In (createRepositoryFromTemplate
        (example_params (Some "acme") (Some "base-starter")) 42)
     (fst (run world_created
               (call env_configured "user_1" "acme-org" example_payload)))
  /\ exists repositoryUrl,
      new_URL env_configured "https://github.com/acme/base-starter"
        = Some repositoryUrl
      /\ forall segments,
          URL.path repositoryUrl = URL.Segments segments ->
          nth_error segments 0 = Some "acme"
          /\ nth_error segments 1 = Some "base-starter".
Proof.
  assert (In (createRepositoryFromTemplate
                (example_params (Some "acme") (Some "base-starter")) 42)
             (fst (run world_created
                       (call env_configured "user_1" "acme-org" example_payload))))
    as Hissued by (vm_compute; right; right; left; reflexivity).
  split; [exact Hissued |].
  destruct (C4_owner_and_repo_are_first_segments env_configured world_created
              "user_1" "acme-org" example_payload
              (example_params (Some "acme") (Some "base-starter")) 42
              (example_template "https://github.com/acme/base-starter")
              Hissued eq_refl)
    as (repositoryUrl & Hurl & Hsegments & _).
  exists repositoryUrl. split; [exact Hurl |].
  intros segments Hpath. destruct (Hsegments segments Hpath) as [Howner Hrepo].
  split; symmetry; assumption.
Defined.

(** C4, as stated, fails: "mailto:acme/base-starter" is a URL, its
    path is the one opaque segment "acme/base-starter", and the owner
    passed on is "base-starter", with no repository. *)
Lemma C4_counterexample :
  exists repositoryUrl params,
    new_URL env_configured "mailto:acme/base-starter" = Some repositoryUrl
    /\ path_segments repositoryUrl = ["acme/base-starter"]
    /\ In (createRepositoryFromTemplate params 42)
          (fst (run (world_template_at "mailto:acme/base-starter")
                    (call env_configured "user_1" "acme-org" example_payload)))
    /\ CreateRepositoryParams.template_owner params = Some "base-starter"
    /\ CreateRepositoryParams.template_repo params = None
    /\ CreateRepositoryParams.template_owner params
         <> nth_error (path_segments repositoryUrl) 0.
Proof.
  exists (URL.mkUrl "mailto" (URL.Opaque "acme/base-starter")),
         (example_params (Some "base-starter") None).
  repeat split; try reflexivity.
  - vm_compute. right. right. left. reflexivity.
  - discriminate.
Qed.

Lemma C6_checks_in_order_witness :
  run world_empty (call env_configured "user_1" "acme-org" example_payload)
    = ([gitHubAppAuthorization_findUnique "auth_1"],
       Returned (error "App authorization not found"))
  /\ run world_no_template (call env_configured "user_1" "acme-org" example_payload)
    = ([gitHubAppAuthorization_findUnique "auth_1"; template_findUnique "tpl_1"],
       Returned (error "Template not found"))
  /\ run world_created (call env_unconfigured "user_1" "acme-org" example_payload)
    = ([gitHubAppAuthorization_findUnique "auth_1"; template_findUnique "tpl_1"],
       Returned (error "GitHub App not configured"))
  /\ run world_no_account (call env_configured "user_1" "acme-org" example_payload)
    = ([gitHubAppAuthorization_findUnique "auth_1"; template_findUnique "tpl_1"],
       Returned (error "Account not found")).
Proof.
  assert (safeParse FormSchema example_payload = SafeParseSuccess example_payload)
    as Hvalid by reflexivity.
  split; [| split; [| split]].
  - now apply (proj1 (C6_checks_in_order env_configured world_empty
                        "user_1" "acme-org" _ _ Hvalid)).
  - now eapply (proj1 (proj2 (C6_checks_in_order env_configured world_no_template
                                "user_1" "acme-org" _ _ Hvalid))).
  - now eapply (proj1 (proj2 (proj2 (C6_checks_in_order env_unconfigured
                                        world_created
                                        "user_1" "acme-org" _ _ Hvalid)))).
  - now eapply (proj2 (proj2 (proj2 (C6_checks_in_order env_configured
                                        world_no_account
                                        "user_1" "acme-org" _ _ Hvalid)))).
Defined.

Lemma C7_failed_repository_witness :
  snd (run world_github_fails
           (call env_configured "user_1" "acme-org" example_payload))
    = Returned (error "Failed to create repository")
  /\ writes (fst (run world_github_fails
                      (call env_configured "user_1" "acme-org" example_payload)))
    = []
  /\ forall data,
      ~ In (organizationTemplate_create data)
           (fst (run world_github_fails
                     (call env_configured "user_1" "acme-org" example_payload))).
Proof.
  apply (C7_failed_repository env_configured world_github_fails "user_1"
           "acme-org" example_payload
           (example_params (Some "acme") (Some "base-starter")) 42).
  - vm_compute. right. right. left. reflexivity.
  - reflexivity.
Defined.

(** C1, as stated, fails: GitHub creates the repository, the create
    rejects because the slug names no organization, and no record is
    persisted; the rejection leaves [call]. *)
Lemma C1_counterexample :
  repository_returned world_create_rejects
    (fst (run_settled world_create_rejects
            (call env_configured "user_1" "no-such-organization" example_payload)))
  = true
  /\ persisted world_create_rejects
       (fst (run_settled world_create_rejects
               (call env_configured "user_1" "no-such-organization"
                  example_payload)))
     = false
  /\ snd (run_settled world_create_rejects
            (call env_configured "user_1" "no-such-organization" example_payload))
     = Thrown (Rejection "No Organization found").
Proof. repeat split. Qed.

Lemma C10_parsing_step_reaches_external_call_witness :
  exists params,
    firstn 3 (fst (run (world_template_at "https://github.com/")
                       (call env_configured "user_1" "acme-org" example_payload)))
      = [gitHubAppAuthorization_findUnique "auth_1"; template_findUnique "tpl_1";
         createRepositoryFromTemplate params 42]
    /\ CreateRepositoryParams.template_owner params = Some ""
    /\ CreateRepositoryParams.template_repo params = None.
Proof.
  destruct (C10_parsing_step_reaches_external_call env_configured
              (world_template_at "https://github.com/") "user_1" "acme-org"
              example_payload example_payload example_authorization
              (example_template "https://github.com/") OctokitClient
              (Account.make "acme") (URL.mkUrl "https" (URL.Segments [""]))
              eq_refl eq_refl eq_refl eq_refl eq_refl eq_refl)
    as (params & Htrace & _ & _ & Hroot & _).
  exists params. split; [exact Htrace |]. exact (Hroot eq_refl).
Defined.

(** C10, as stated, fails: "https://github.com/acme/" has one
    non-empty path segment, and the repository passed on is the empty
    string, not undefined. *)
Lemma C10_counterexample :
  exists repositoryUrl params,
    new_URL env_configured "https://github.com/acme/" = Some repositoryUrl
    /\ non_empty_segments repositoryUrl = ["acme"]
    /\ In (createRepositoryFromTemplate params 42)
          (fst (run (world_template_at "https://github.com/acme/")
                    (call env_configured "user_1" "acme-org" example_payload)))
    /\ CreateRepositoryParams.template_owner params = Some "acme"
    /\ CreateRepositoryParams.template_repo params = Some ""
    /\ CreateRepositoryParams.template_repo params <> None.
Proof.
  exists (URL.mkUrl "https" (URL.Segments ["acme"; ""])),
         (example_params (Some "acme") (Some "")).
  repeat split; try reflexivity.
  - vm_compute. right. right. left. reflexivity.
  - discriminate.
Qed.

(** ** The further properties at the examples *)

Lemma external_call_arguments_witness :
  exists appAuthorization account,
    world_created (authorization_request example_payload) = Some appAuthorization
    /\ AccountSchema_safeParse env_configured
         (GitHubAppAuthorization.account appAuthorization) = Some account
    /\ 42%Z = GitHubAppAuthorization.installationId appAuthorization
    /\ CreateRepositoryParams.owner
         (example_params (Some "acme") (Some "base-starter"))
       = Account.login account
    /\ CreateRepositoryParams.name
         (example_params (Some "acme") (Some "base-starter"))
       = string_of (get example_payload "name")
    /\ 3 <= String.length "new-repo" <= 100
    /\ (CreateRepositoryParams.private
          (example_params (Some "acme") (Some "base-starter")) = true
        <-> get example_payload "private" = JsString "on")
    /\ (CreateRepositoryParams.private
          (example_params (Some "acme") (Some "base-starter")) = false
        <-> get example_payload "private" = JsUndefined).
Proof.
  apply (external_call_arguments env_configured world_created "user_1"
           "acme-org" example_payload
           (example_params (Some "acme") (Some "base-starter")) 42).
  vm_compute. right. right. left. reflexivity.
Defined.

Lemma error_message_names_the_cause_witness :
  snd (run world_empty (call env_configured "user_1" "acme-org" example_payload))
    = Returned (error "App authorization not found")
  /\ snd (run world_github_fails
              (call env_configured "user_1" "acme-org" example_payload))
    = Returned (error "Failed to create repository").
Proof.
  split.
  - apply (proj1 (error_message_names_the_cause env_configured world_empty
                    "user_1" "acme-org" example_payload eq_refl)).
    reflexivity.
  - apply (proj2 (proj2 (proj2 (proj2
             (error_message_names_the_cause env_configured world_github_fails
                "user_1" "acme-org" example_payload eq_refl))))).
    reflexivity.
Defined.

Lemma invalid_fields_are_reported_witness :
  reported "name" (violations example_invalid_payload) = true
  /\ reported "templateId" (violations example_invalid_payload) = true
  /\ reported "private" (violations example_invalid_payload) = false
  /\ reported "appAuthorizationId" (violations example_invalid_payload) = false.
Proof.
  destruct (invalid_fields_are_reported
              [("name", JsString ""); ("appAuthorizationId", JsString "auth_1")]
              (violations example_invalid_payload) eq_refl)
    as (Hname & Htemplate & Hprivate & Hauthorization & _).
  rewrite Hname, Htemplate, Hprivate, Hauthorization. repeat split.
Defined.

Lemma other_private_marker_is_rejected_witness :
  exists issues,
    safeParse FormSchema (JsObject example_props_private_off)
      = SafeParseError issues
    /\ In (mkIssue (invalid_literal "on" (JsString "off")) ["private"]) issues
    /\ run world_created
         (call env_configured "user_1" "acme-org"
            (JsObject example_props_private_off))
       = ([], Returned (error (generateErrorMessage env_configured issues))).
Proof.
  apply (other_private_marker_is_rejected env_configured world_created
           "user_1" "acme-org" example_props_private_off);
    cbn; discriminate.
Defined.


Lemma other_keys_are_ignored_witness :
  run world_created
      (call env_configured "user_1" "acme-org" example_payload_extra_key)
  = run world_created (call env_configured "user_1" "acme-org" example_payload).
Proof.
  apply (other_keys_are_ignored env_configured world_created).
  intros key Hkey. cbn [In form_keys] in Hkey.
  destruct Hkey as [<- | [<- | [<- | [<- | []]]]]; reflexivity.
Defined.

Lemma record_matches_the_repository_witness :
  exists params installationId githubRepository,
    fst (run world_created
             (call env_configured "user_1" "acme-org" example_payload))
    = [authorization_request example_payload; template_request example_payload;
       createRepositoryFromTemplate params installationId;
       organizationTemplate_create
         (create_input "acme-org" example_payload example_repository)]
    /\ world_created (createRepositoryFromTemplate params installationId)
       = Some githubRepository
    /\ "new-repo" = CreateRepositoryParams.name params
    /\ true = CreateRepositoryParams.private params
    /\ "https://github.com/acme/new-repo"
       = GithubRepository.html_url githubRepository
    /\ example_repository = githubRepository
    /\ connect_id "tpl_1" = connect_id (string_of (get example_payload "templateId"))
    /\ connect_id "auth_1"
       = connect_id (string_of (get example_payload "appAuthorizationId"))
    /\ OrganizationTemplateCreateInput.organization
         (create_input "acme-org" example_payload example_repository)
       = connect_slug "acme-org".
Proof.
  apply (record_matches_the_repository env_configured world_created "user_1"
           "acme-org" example_payload
           (create_input "acme-org" example_payload example_repository)).
  vm_compute. right. right. right. left. reflexivity.
Defined.

Lemma owner_and_repo_are_single_components_witness :
  (forall owner,
      CreateRepositoryParams.template_owner
        (example_params (Some "acme") (Some "base-starter")) = Some owner ->
      no_slash owner = true)
  /\ (forall repo,
      CreateRepositoryParams.template_repo
        (example_params (Some "acme") (Some "base-starter")) = Some repo ->
      no_slash repo = true)
  /\ (CreateRepositoryParams.template_owner
        (example_params (Some "acme") (Some "base-starter")) = None ->
      CreateRepositoryParams.template_repo
        (example_params (Some "acme") (Some "base-starter")) = None).
Proof.
  apply (owner_and_repo_are_single_components env_configured world_created
           "user_1" "acme-org" example_payload
           (example_params (Some "acme") (Some "base-starter")) 42).
  vm_compute. right. right. left. reflexivity.
Defined.
